(** * raycast-shadcn-install: the registry browser command

    A shallow embedding of the [Command] component (its source is listed
    after the manifest in [src/package.json]; of the two revisions there, the
    later one, with the typed fallback and the install-command actions) and
    of [src/registries.ts], with the properties the specification states
    about them.

    TypeScript types are erased at run time, so the data the command handles
    is modelled as untyped JavaScript values: what [response.json()] returns
    is any JSON document, and the [as] casts of the source check nothing. *)

From Stdlib Require Import String Ascii List Bool Arith Lia ZArith DecimalString.
From stdpp Require Import base option gmap strings.
Import ListNotations.

Local Open Scope string_scope.
Local Open Scope list_scope.
#[local] Arguments String.append !s1 s2 : simpl nomatch.

(** ** Strings

    JavaScript's string operations the command uses, on Rocq strings. The
    separators and patterns involved ("/" and ".json") are ASCII, so reading a
    string as a sequence of bytes or of UTF-16 code units makes no difference
    to them. *)

(** [s.endsWith(suffix)] *)
Definition endsWith (s suffix : string) : bool :=
  let n := String.length s in
  let k := String.length suffix in
  Nat.leb k n && String.eqb (substring (n - k) k s) suffix.

(** [s.split(sep)] for a one-character separator: the pieces between the
    separators, of which there is always at least one. *)
Fixpoint split (sep : ascii) (s : string) : list string :=
  match s with
  | EmptyString => [EmptyString]
  | String c rest =>
      if Ascii.eqb c sep then EmptyString :: split sep rest
      else match split sep rest with
           | [] => [String c EmptyString]
           | piece :: pieces => String c piece :: pieces
           end
  end.

(** [s.replace(pattern, replacement)] for a string pattern: only the first
    occurrence is replaced. (The replacement the command passes is empty, so
    the [$]-patterns of replacement strings do not come into play.) *)
Fixpoint replace (pattern replacement s : string) : string :=
  if String.prefix pattern s
  then replacement +:+ substring (String.length pattern) (String.length s) s
  else match s with
       | EmptyString => EmptyString
       | String c rest => String c (replace pattern replacement rest)
       end.

(** A number of elements ([array.length]) in a template literal. *)
Definition nat_to_string (n : nat) : string :=
  NilEmpty.string_of_uint (Nat.to_uint n).

(** ** Exceptions *)

(** What a [throw] carries: an [Error] object (of some class [name]) with its
    message, or a value that is no [Error], known by its string form. *)
Inductive thrown : Type :=
| ThrownError (name message : string)
| ThrownOther (as_string : string).

Inductive result (A : Type) : Type :=
| Ok (a : A)
| Throw (e : thrown).
Arguments Ok {A} a.
Arguments Throw {A} e.

Definition result_bind {A B : Type} (r : result A) (k : A -> result B) : result B :=
  match r with
  | Ok a => k a
  | Throw e => Throw e
  end.

Declare Scope result_scope.
Delimit Scope result_scope with res.
Notation "'let*' x ':=' r 'in' k" := (result_bind r (fun x => k))
  (at level 10, x name, r at level 100, k at level 200) : result_scope.

(** [new Error(message)] *)
Definition Error (message : string) : thrown := ThrownError "Error" message.

(** [String(e)] of a thrown value: [Error.prototype.toString] for an error. *)
Definition thrown_to_string (e : thrown) : string :=
  match e with
  | ThrownError name message =>
      if String.eqb name "" then message
      else if String.eqb message "" then name
      else name +:+ ": " +:+ message
  | ThrownOther s => s
  end.

(** [array.map(f)] where [f] may throw: elements are visited in order and the
    first exception ends the loop. *)
Fixpoint map_result {A B : Type} (f : A -> result B) (l : list A) : result (list B) :=
  match l with
  | [] => Ok []
  | x :: rest =>
      (let* y := f x in
       let* ys := map_result f rest in
       Ok (y :: ys))%res
  end.

(** ** The host: what the JavaScript engine and the platform provide *)

(** The engine's [TypeError]s the command can run into, by kind and by the
    property at fault. The text of the engine's message also depends on the
    expression and on whether the receiver is [null] or [undefined]; it is
    the host's ([type_error_message]), and no property below depends on
    it. *)
Inductive type_error : Type :=
| NotAFunction (property : string)
| ReadPropertyOfNullish (property : string)
| CannotConvertToPrimitive.

(** The part of a [URL] object the command reads. *)
Record URL : Type := mkURL { pathname : string }.

(** JSON numbers are IEEE doubles and [new URL] is the platform's WHATWG
    parser; the command only needs the operations below, so they are left to
    the host. [new_URL] is [None] where the constructor throws. *)
Class Host : Type := {
  number : Type;
  number_truthy : number -> bool;
  number_to_string : number -> string;
  new_URL : string -> option URL;
  type_error_message : type_error -> string
}.

(** ** Registries ([src/registries.ts]) *)

Module Registry.
Record t : Type := mk {
  name : string;
  jsonUrl : string;
  componentJsonBaseUrl : string;
  description : string;
  icon : option string
}.
End Registry.

Definition availableRegistries : list Registry.t :=
  [ Registry.mk "Shadcn UI"
      "https://ui.shadcn.com/registry/index.json"
      "https://ui.shadcn.com/registry/components/r/"
      "Official shadcn components"
      (Some "🎨");
    Registry.mk "Kitze UI"
      "https://ui.kitze.io/registry.json"
      "https://ui.kitze.io/r/"
      "Kitze UI components"
      (Some "🧩") ].

(** ** What the launcher shows: toasts and empty views *)

Module Toast.
Inductive Style : Type := Animated | Success | Failure.
Record t : Type := mk {
  style : Style;
  title : string;
  message : option string
}.
End Toast.

Module EmptyView.
Record t : Type := mk {
  title : string;
  description : string
}.
End EmptyView.

Section Command.
Context `{Host}.

(** ** JavaScript values *)

(** A JSON document as [JSON.parse] builds it, and [undefined], which the
    fields of a component can hold. An object is the map of its own
    properties. *)
#[warning="-register-all"]
Inductive value : Type :=
| VUndefined
| VNull
| VBool (b : bool)
| VNum (n : number)
| VStr (s : string)
| VArr (elements : list value)
| VObj (properties : gmap string value).

Definition TypeError (kind : type_error) : thrown :=
  ThrownError "TypeError" (type_error_message kind).

(** [v.key] and [v[key]]. None of the keys the command reads ([name],
    [description], [dependencies], [registryDependencies], [files], [type],
    [items], [path]) is a property of [Object.prototype], [Array.prototype]
    or of the wrappers of primitives, so only an object's own properties
    answer. *)
Definition Get (v : value) (key : string) : result value :=
  match v with
  | VUndefined | VNull => Throw (TypeError (ReadPropertyOfNullish key))
  | VObj properties => Ok (default VUndefined (properties !! key))
  | _ => Ok VUndefined
  end.

(** [typeof v === "object" && v !== null] *)
Definition is_object (v : value) : bool :=
  match v with
  | VArr _ | VObj _ => true
  | _ => false
  end.

(** [key in v], for [v] an object and [key] one of the keys above. *)
Definition has_property (key : string) (v : value) : bool :=
  match v with
  | VObj properties => bool_decide (is_Some (properties !! key))
  | _ => false
  end.

(** [typeof v === "string"] *)
Definition is_string (v : value) : bool :=
  match v with
  | VStr _ => true
  | _ => false
  end.

(** [Array.isArray(v)] *)
Definition isArray (v : value) : bool :=
  match v with
  | VArr _ => true
  | _ => false
  end.

(** The truth value of [v] in a condition. *)
Definition ToBoolean (v : value) : bool :=
  match v with
  | VUndefined | VNull => false
  | VBool b => b
  | VNum n => number_truthy n
  | VStr s => negb (String.eqb s "")
  | VArr _ | VObj _ => true
  end.

(** [v !== s] for a string literal [s] *)
Definition strict_neq_string (v : value) (s : string) : bool :=
  match v with
  | VStr t => negb (String.eqb t s)
  | _ => true
  end.

(** [String(v)], which is also what a template literal does to [v]. An array
    is joined with commas, [null] and [undefined] elements giving the empty
    string. An object is converted by its [toString] method: a parsed JSON
    object inherits [Object.prototype.toString], unless it has a property of
    its own of that name, which is then no function ([valueOf] returns the
    object itself), and the conversion throws a [TypeError]. *)
Fixpoint ToString (v : value) : result string :=
  match v with
  | VUndefined => Ok "undefined"
  | VNull => Ok "null"
  | VBool b => Ok (if b then "true" else "false")
  | VNum n => Ok (number_to_string n)
  | VStr s => Ok s
  | VArr elements =>
      (let* pieces :=
         (fix join (l : list value) : result (list string) :=
            match l with
            | [] => Ok []
            | x :: rest =>
                let* piece :=
                  match x with
                  | VUndefined | VNull => Ok ""
                  | _ => ToString x
                  end in
                let* pieces := join rest in
                Ok (piece :: pieces)
            end) elements in
       Ok (String.concat "," pieces))%res
  | VObj properties =>
      if bool_decide (is_Some (properties !! "toString"))
      then Throw (TypeError CannotConvertToPrimitive)
      else Ok "[object Object]"
  end.

(** [v.map(f)]: [v] has a [map] method when it is an array. *)
Definition js_map {B : Type} (v : value) (f : value -> result B) : result (list B) :=
  match v with
  | VArr elements => map_result f elements
  | VUndefined | VNull => Throw (TypeError (ReadPropertyOfNullish "map"))
  | _ => Throw (TypeError (NotAFunction "map"))
  end.

(** ** Components and their normalisation *)

(** A [Component] as it exists at run time: the interface says [name] is a
    string and [files] a list of strings, but the fields hold whatever the
    registry's document had. *)
Record Component : Type := mkComponent {
  name : value;
  description : value;
  dependencies : value;
  registryDependencies : value;
  files : value;
  type : value
}.

(** The "Shadcn UI" branch: the document is taken to be an array of entries,
    copied field by field. *)
Definition shadcnComponent (comp : value) : result Component :=
  (let* name := Get comp "name" in
   let* dependencies := Get comp "dependencies" in
   let* registryDependencies := Get comp "registryDependencies" in
   let* files := Get comp "files" in
   let* type := Get comp "type" in
   Ok (mkComponent name VUndefined dependencies registryDependencies files type))%res.

Definition processShadcn (rawData : value) : result (list Component) :=
  js_map rawData shadcnComponent.

(** The "Kitze UI" branch: the entries are under [items], and the files are
    objects of which the [path] is kept. *)
Definition kitzeComponent (comp : value) : result Component :=
  (let* name := Get comp "name" in
   let* description := Get comp "description" in
   let* dependencies := Get comp "dependencies" in
   let* registryDependencies := Get comp "registryDependencies" in
   let* compFiles := Get comp "files" in
   let* files := js_map compFiles (fun file => Get file "path") in
   let* type := Get comp "type" in
   Ok (mkComponent name description dependencies registryDependencies
         (VArr files) type))%res.

Definition processKitze (rawData : value) : result (list Component) :=
  (let* rawComponents := Get rawData "items" in
   js_map rawComponents kitzeComponent)%res.

(** The test the fallback repeats for each field:
    [typeof comp === "object" && comp !== null && key in comp && check(comp[key])],
    with the field's value when it holds. *)
Definition checked_field (check : value -> bool) (comp : value) (key : string)
  : result (option value) :=
  if is_object comp && has_property key comp
  then (let* v := Get comp key in
        Ok (if check v then Some v else None))%res
  else Ok None.

(** [array.map(String)] *)
Definition map_String (array : value) : result value :=
  (let* strings := js_map array ToString in
   Ok (VArr (List.map VStr strings)))%res.

(** The fallback's callback: one entry of an unknown registry. *)
Definition coerceUnknown (comp : value) : result Component :=
  (let* name :=
     (let* field := checked_field is_string comp "name" in
      match field with
      | Some v => Ok v
      | None => Ok (VStr "Unknown Component")
      end) in
   let* description :=
     (let* field := checked_field is_string comp "description" in
      match field with
      | Some v => Ok v
      | None => Ok VUndefined
      end) in
   let* files :=
     (let* field := checked_field isArray comp "files" in
      match field with
      | Some v => map_String v
      | None => Ok (VArr [])
      end) in
   let* dependencies :=
     (let* field := checked_field isArray comp "dependencies" in
      match field with
      | Some v => map_String v
      | None => Ok VUndefined
      end) in
   let* registryDependencies :=
     (let* field := checked_field isArray comp "registryDependencies" in
      match field with
      | Some v => map_String v
      | None => Ok VUndefined
      end) in
   let* type :=
     (let* field := checked_field is_string comp "type" in
      match field with
      | Some v => Ok v
      | None => Ok (VStr "unknown")
      end) in
   Ok (mkComponent name description dependencies registryDependencies files type))%res.

Definition processUnknown (rawData : value) : result (list Component) :=
  js_map rawData coerceUnknown.

(** The filter before display:
    [c && c.name && c.name !== "Unknown Component"] ([c] is an object, so the
    first conjunct holds). *)
Definition isValidComponent (c : Component) : bool :=
  ToBoolean (name c) && strict_neq_string (name c) "Unknown Component".

(** ** The command's state and its effects *)

Record State : Type := mkState {
  selectedRegistry : option Registry.t;
  components : list Component;
  isLoading : bool;
  error : option string
}.

Definition initialState : State := mkState None [] false None.

(** A response of [fetch], with what its [text()] and [json()] will give. *)
Record Response : Type := mkResponse {
  ok : bool;
  status : number;
  statusText : string;
  text : result string;
  json : result value
}.

(** What the command does to the outside, in the order it does it. *)
Inductive Event : Type :=
| SetSelectedRegistry (registry : option Registry.t)
| SetComponents (cs : list Component)
| SetIsLoading (b : bool)
| SetError (e : option string)
| ShowToast (toast : Toast.t)
| Fetch (url : string)
| ConsoleWarn (message : string)
| ConsoleError (message : string) (detail : thrown)
| ClipboardPaste (content : string)
| CloseMainWindow.

(** The outside as the command meets it: what a request to a URL comes back
    with, and whether pasting and closing the window succeed. *)
Record Environment : Type := mkEnvironment {
  network : string -> result Response;
  paste_outcome : string -> result unit;
  close_outcome : result unit
}.

Record World : Type := mkWorld {
  state : State;
  log : list Event;
  environment : Environment
}.

(** Computations that read and replace the state, log their effects and may
    throw. A state setter takes effect at once and an [await] is a step of
    the sequence: one handler runs from start to end. [showToast] and the
    console never fail. *)
Definition M (A : Type) : Type := World -> result A * World.

Definition ret {A : Type} (a : A) : M A := fun w => (Ok a, w).

Definition bind {A B : Type} (m : M A) (k : A -> M B) : M B :=
  fun w =>
    match m w with
    | (Ok a, w') => k a w'
    | (Throw e, w') => (Throw e, w')
    end.

Definition throw {A : Type} (e : thrown) : M A := fun w => (Throw e, w).

Definition lift {A : Type} (r : result A) : M A := fun w => (r, w).

Definition try_catch {A : Type} (body : M A) (handler : thrown -> M A) : M A :=
  fun w =>
    match body w with
    | (Ok a, w') => (Ok a, w')
    | (Throw e, w') => handler e w'
    end.

Definition try_finally {A : Type} (body : M A) (finalizer : M unit) : M A :=
  fun w =>
    match body w with
    | (r, w') =>
        match finalizer w' with
        | (Ok _, w'') => (r, w'')
        | (Throw e, w'') => (Throw e, w'')
        end
    end.

Definition emit (e : Event) : M unit :=
  fun w => (Ok tt, mkWorld (state w) (log w ++ [e]) (environment w)).

Definition modify (f : State -> State) : M unit :=
  fun w => (Ok tt, mkWorld (f (state w)) (log w) (environment w)).

End Command.

Declare Scope command_scope.
Delimit Scope command_scope with M.
Notation "'let*' x ':=' m 'in' k" := (bind m (fun x => k))
  (at level 10, x name, m at level 100, k at level 200) : command_scope.
Notation "m ;; k" := (bind m (fun _ => k))
  (at level 100, k at level 200, right associativity) : command_scope.

Section Handlers.
Context `{Host}.
Local Open Scope command_scope.

Definition setSelectedRegistry (registry : option Registry.t) : M unit :=
  emit (SetSelectedRegistry registry) ;;
  modify (fun st => mkState registry (components st) (isLoading st) (error st)).

Definition setComponents (cs : list Component) : M unit :=
  emit (SetComponents cs) ;;
  modify (fun st => mkState (selectedRegistry st) cs (isLoading st) (error st)).

Definition setIsLoading (b : bool) : M unit :=
  emit (SetIsLoading b) ;;
  modify (fun st => mkState (selectedRegistry st) (components st) b (error st)).

Definition setError (e : option string) : M unit :=
  emit (SetError e) ;;
  modify (fun st => mkState (selectedRegistry st) (components st) (isLoading st) e).

Definition showToast (style : Toast.Style) (title : string) (message : option string) : M unit :=
  emit (ShowToast (Toast.mk style title message)).

Definition fetch (url : string) : M Response :=
  emit (Fetch url) ;;
  fun w => (network (environment w) url, w).

(** The error message of a failed request:
    [`HTTP ${response.status}: ${response.statusText} - ${errorBody}`] *)
Definition httpErrorMessage (response : Response) (errorBody : string) : string :=
  "HTTP " +:+ number_to_string (status response) +:+ ": " +:+ statusText response
    +:+ " - " +:+ errorBody.

(** The unknown-registry branch of [fetchComponents], with its own [try]. *)
Definition processFallback (registry : Registry.t) (rawData : value) : M (list Component) :=
  emit (ConsoleWarn ("Processing unknown registry type: " +:+ Registry.name registry
                       +:+ ". Assuming direct array structure.")) ;;
  try_catch
    (lift (processUnknown rawData))
    (fun fallbackError =>
       emit (ConsoleError ("Error processing fallback registry " +:+ Registry.name registry +:+ ":")
               fallbackError) ;;
       throw (Error ("Failed to process data structure for registry: "
                       +:+ Registry.name registry))).

(** The body of the [try] of [fetchComponents]. *)
Definition fetchComponents_try (registry : Registry.t) (url : string) : M unit :=
  showToast Toast.Animated ("Fetching from " +:+ Registry.name registry +:+ "...") None ;;
  let* response := fetch url in
  (if negb (ok response)
   then
     let* errorBody :=
       try_catch (lift (text response)) (fun _e => ret "Unknown error") in
     throw (Error (httpErrorMessage response errorBody))
   else ret tt) ;;
  let* rawData := lift (json response) in
  let* processedComponents :=
    (if String.eqb (Registry.name registry) "Shadcn UI"
     then lift (processShadcn rawData)
     else if String.eqb (Registry.name registry) "Kitze UI"
     then lift (processKitze rawData)
     else processFallback registry rawData) in
  let validComponents := List.filter isValidComponent processedComponents in
  setComponents validComponents ;;
  showToast Toast.Success "Components loaded"
    (Some (nat_to_string (length validComponents) +:+ " components found in "
             +:+ Registry.name registry)).

(** The [catch] of [fetchComponents]. *)
Definition fetchComponents_catch (e : thrown) : M unit :=
  emit (ConsoleError "Fetch error:" e) ;;
  let errorMessage :=
    match e with
    | ThrownError _ message => message
    | ThrownOther _ => "An unknown error occurred"
    end in
  setError (Some errorMessage) ;;
  showToast Toast.Failure "Error Fetching Components" (Some errorMessage).

Definition fetchComponents (registry : Registry.t) : M unit :=
  setIsLoading true ;;
  setError None ;;
  setComponents [] ;;
  let url := Registry.jsonUrl registry in
  try_finally
    (try_catch (fetchComponents_try registry url) fetchComponents_catch)
    (setIsLoading false).

(** The handler starts the fetch and does not wait for it: in the source it
    returns with the request pending (the state then is the one after the
    fetch's first three setters, loading). This is the handler together
    with the fetch it started, up to the moment the fetch settles. *)
Definition handleSelectRegistry (registry : Registry.t) : M unit :=
  setSelectedRegistry (Some registry) ;;
  fetchComponents registry.

Definition handleGoBack : M unit :=
  setSelectedRegistry None ;;
  setComponents [] ;;
  setError None.

Definition handlePasteComponentUrl (registry : Registry.t) (componentName : string) : M unit :=
  let componentJsonUrl :=
    Registry.componentJsonBaseUrl registry +:+ componentName +:+ ".json" in
  try_catch
    (emit (ClipboardPaste componentJsonUrl) ;;
     (fun w => (paste_outcome (environment w) componentJsonUrl, w)) ;;
     showToast Toast.Success "Pasted Component URL" (Some componentJsonUrl) ;;
     emit CloseMainWindow ;;
     (fun w => (close_outcome (environment w), w)))
    (fun _error =>
       showToast Toast.Failure "Failed to Paste URL" (Some (thrown_to_string _error))).

(** ** Rendering *)

(** The name shown for a registry dependency. Whatever is thrown inside the
    [try] is swallowed by the empty [catch], and the dependency itself is
    returned. *)
Definition getCleanDepName (dep : string) : string :=
  match new_URL dep with
  | None => dep
  | Some url =>
      if endsWith (pathname url) ".json"
      then
        let parts := split "/" (pathname url) in
        match nth_error parts (length parts - 1) with
        | Some filename => replace ".json" "" filename
        | None => dep
        end
      else dep
  end.

(** The actions of a component's row. *)
Inductive Action : Type :=
| ActionPaste (title content : string)
| ActionCopyToClipboard (title content : string)
| ActionCallback (title : string) (onAction : M unit).

Definition actionPanel (selectedRegistry : Registry.t) (component : Component)
  : result (list Action) :=
  (let* componentName := ToString (name component) in
   Ok [ ActionPaste "Paste Install Command (with URL)"
          ("npx shadcn-ui@latest add " +:+ Registry.componentJsonBaseUrl selectedRegistry
             +:+ componentName +:+ ".json");
        ActionCopyToClipboard "Copy Install Command (name only)"
          ("npx shadcn-ui@latest add " +:+ componentName);
        ActionCallback "Go Back to Registries" handleGoBack ])%res.

(** The strings an action panel hands to the clipboard. *)
Definition clipboardContents (actions : list Action) : list string :=
  flat_map (fun a =>
              match a with
              | ActionPaste _ content | ActionCopyToClipboard _ content => [content]
              | ActionCallback _ _ => []
              end) actions.

(** The strings a handler's run pasted, in order. *)
Definition pasted (events : list Event) : list string :=
  flat_map (fun e =>
              match e with
              | ClipboardPaste content => [content]
              | _ => []
              end) events.

(** [{error && <List.EmptyView ... description={error} />}]: shown when the
    error is a non-empty string. *)
Definition errorView (title : string) (st : State) : option EmptyView.t :=
  match error st with
  | Some e => if String.eqb e "" then None else Some (EmptyView.mk title e)
  | None => None
  end.

Inductive View : Type :=
| RegistryList (isLoading : bool) (errorView : option EmptyView.t)
    (items : list Registry.t)
| ComponentList (isLoading : bool) (navigationTitle : string)
    (errorView noComponentsView : option EmptyView.t) (items : list Component).

(** The two lists of [Command]; of a component's row, the component stands
    for the row (its actions are [actionPanel]). *)
Definition render (st : State) : View :=
  match selectedRegistry st with
  | None =>
      RegistryList (isLoading st) (errorView "Error Loading Registries" st)
        availableRegistries
  | Some registry =>
      ComponentList (isLoading st) (Registry.name registry +:+ " Components")
        (errorView "Error Fetching Components" st)
        (match errorView "Error Fetching Components" st with
         | Some _ => None
         | None =>
             if (length (components st) =? 0)%nat && negb (isLoading st)
             then Some (EmptyView.mk "No Components Found"
                          ("No components listed in " +:+ Registry.name registry +:+ "."))
             else None
         end)
        (components st)
  end.

(** The phases the specification names:
    Unselected, Fetching, Loaded and Errored. *)
Inductive Phase : Type := Unselected | Fetching | Loaded | Errored.

Definition phase (st : State) : Phase :=
  match selectedRegistry st with
  | None => Unselected
  | Some _ =>
      if isLoading st then Fetching
      else match errorView "Error Fetching Components" st with
           | Some _ => Errored
           | None => Loaded
           end
  end.

End Handlers.

(** * The vocabulary of the properties *)

Section Vocabulary.
Context `{Host}.

(** [needle] is a part of [s]. *)
Definition contains (s needle : string) : Prop :=
  exists before after, s = before +:+ needle +:+ after.

(** [c] is one of the characters of [s]. *)
Fixpoint has_char (c : ascii) (s : string) : bool :=
  match s with
  | EmptyString => false
  | String c' rest => Ascii.eqb c' c || has_char c rest
  end.

(** [segment] is the last of the pieces of [s] between the separators. *)
Definition last_segment (sep : ascii) (s segment : string) : Prop :=
  exists pieces,
    s = String.concat (String sep EmptyString) (pieces ++ [segment])
    /\ Forall (fun piece => has_char sep piece = false) (pieces ++ [segment]).

(** [r] is [s] without the first occurrence of [pattern], which [s] has. *)
Definition without_first (pattern s r : string) : Prop :=
  exists before after,
    s = before +:+ pattern +:+ after
    /\ r = before +:+ after
    /\ forall before' after',
         s = before' +:+ pattern +:+ after' ->
         String.length before <= String.length before'.

(** The state the setters of a run lead to. *)
Definition replay (events : list Event) (st : State) : State :=
  fold_left
    (fun st e =>
       match e with
       | SetSelectedRegistry registry =>
           mkState registry (components st) (isLoading st) (error st)
       | SetComponents cs =>
           mkState (selectedRegistry st) cs (isLoading st) (error st)
       | SetIsLoading b =>
           mkState (selectedRegistry st) (components st) b (error st)
       | SetError e =>
           mkState (selectedRegistry st) (components st) (isLoading st) e
       | _ => st
       end)
    events st.

Definition is_request (e : Event) : bool :=
  match e with
  | Fetch _ => true
  | _ => false
  end.

(** What [errorBody] ends up as: the body, or the placeholder when reading
    it fails. *)
Definition bestEffortBody (body : result string) : string :=
  match body with
  | Ok b => b
  | Throw _ => "Unknown error"
  end.

(** The components a view lists. *)
Definition displayed (view : View) : list Component :=
  match view with
  | RegistryList _ _ _ => []
  | ComponentList _ _ _ _ items => items
  end.

(** A name that is there and means something: neither missing nor empty, and
    not the placeholder of the fallback. *)
Definition meaningful_name (v : value) : Prop :=
  ToBoolean v = true
  /\ v <> VUndefined /\ v <> VNull /\ v <> VStr "" /\ v <> VStr "Unknown Component".

(** An object's own property, if it is an object and has it. *)
Definition own (v : value) (key : string) : option value :=
  match v with
  | VObj properties => properties !! key
  | _ => None
  end.

Definition is_string_array (v : value) : bool :=
  match v with
  | VArr elements => forallb is_string elements
  | _ => false
  end.

(** A field that may be absent, [field?: T]. *)
Definition optional (check : value -> bool) (field : option value) : bool :=
  match field with
  | Some v => check v
  | None => true
  end.

Definition required (check : value -> bool) (field : option value) : bool :=
  match field with
  | Some v => check v
  | None => false
  end.

(** A document of the shape of [ShadcnIndexComponentRaw[]]. *)
Definition wellFormedShadcnEntry (entry : value) : bool :=
  required is_string (own entry "name")
  && optional is_string_array (own entry "dependencies")
  && optional is_string_array (own entry "registryDependencies")
  && required is_string_array (own entry "files")
  && required is_string (own entry "type").

Definition wellFormedShadcnIndex (rawData : value) : bool :=
  match rawData with
  | VArr entries => forallb wellFormedShadcnEntry entries
  | _ => false
  end.

(** A document with [items] of the shape of [KitzeComponentRaw[]], the
    files being [KitzeFile]s. *)
Definition wellFormedKitzeFile (file : value) : bool :=
  required is_string (own file "path") && required is_string (own file "type").

Definition wellFormedKitzeEntry (entry : value) : bool :=
  required is_string (own entry "name")
  && optional is_string (own entry "title")
  && optional is_string (own entry "description")
  && optional is_string_array (own entry "dependencies")
  && optional is_string_array (own entry "registryDependencies")
  && required (fun v => match v with
                        | VArr fileObjects => forallb wellFormedKitzeFile fileObjects
                        | _ => false
                        end) (own entry "files")
  && required is_string (own entry "type").

Definition wellFormedKitzeRegistry (rawData : value) : bool :=
  required (fun v => match v with
                     | VArr entries => forallb wellFormedKitzeEntry entries
                     | _ => false
                     end) (own rawData "items").

(** [String(v)] returns: no object with a [toString] property of its own is
    met on the way through the arrays. *)
Fixpoint stringifiable (v : value) : bool :=
  match v with
  | VArr elements => forallb stringifiable elements
  | VObj properties => negb (bool_decide (is_Some (properties !! "toString")))
  | _ => true
  end.

(** The field [key] of [comp], when it is an array, holds only values that
    [String] converts. *)
Definition stringifiable_field (comp : value) (key : string) : bool :=
  match own comp key with
  | Some (VArr elements) => forallb stringifiable elements
  | _ => true
  end.

(** The field when it is a string, and [absent] otherwise. *)
Definition string_or (field : option value) (absent : value) : value :=
  match field with
  | Some (VStr s) => VStr s
  | _ => absent
  end.

(** [result] is the field with its elements turned into strings when it is
    an array, and [absent] otherwise. *)
Definition stringified (field : option value) (absent result : value) : Prop :=
  match field with
  | Some (VArr elements) =>
      exists strs,
        Forall2 (fun x str => ToString x = Ok str) elements strs
        /\ result = VArr (List.map VStr strs)
  | _ => result = absent
  end.

Definition stringifiable_entry (comp : value) : bool :=
  stringifiable_field comp "files"
  && stringifiable_field comp "dependencies"
  && stringifiable_field comp "registryDependencies".

(** What the fallback makes of an entry. *)
Definition coerced (comp : value) (c : Component) : Prop :=
  name c = string_or (own comp "name") (VStr "Unknown Component")
  /\ description c = string_or (own comp "description") VUndefined
  /\ stringified (own comp "files") (VArr []) (files c)
  /\ stringified (own comp "dependencies") VUndefined (dependencies c)
  /\ stringified (own comp "registryDependencies") VUndefined (registryDependencies c)
  /\ type c = string_or (own comp "type") (VStr "unknown").

(** The events a run adds to the log. *)
Definition events_of {A : Type} (m : M A) (w : World) : list Event :=
  skipn (length (log w)) (log (snd (m w))).

(** The two forms of clipboard text: the URL of a component's manifest, and
    an install command, [<tool> add <component-or-url>]. *)
Definition manifestUrl (registry : Registry.t) (componentName : string) : string :=
  Registry.componentJsonBaseUrl registry +:+ componentName +:+ ".json".

Definition installCommand (target : string) : string :=
  "npx shadcn-ui@latest add " +:+ target.

Definition clipboard_form (registry : Registry.t) (componentName s : string) : Prop :=
  s = manifestUrl registry componentName
  \/ s = installCommand componentName
  \/ s = installCommand (manifestUrl registry componentName).

(** The piece of an array's string for one element. *)
Definition piece (x : value) : result string :=
  match x with
  | VUndefined | VNull => Ok ""
  | _ => ToString x
  end.

End Vocabulary.

(** * The rows of the component list

    Of a row ([List.Item]), the texts the command computes itself: the
    subtitle and the markdown of the detail panel (the actions are
    [actionPanel]). The [keywords] are not modelled. *)

Section Rows.
Context `{Host}.

(** The line break, ["\n"]. *)
Definition nl : string := String (ascii_of_nat 10) EmptyString.

(** [v.join(separator)]: [v] has a [join] method when it is an array. *)
Definition js_join (v : value) (separator : string) : result string :=
  match v with
  | VArr elements =>
      (let* pieces := map_result piece elements in
       Ok (String.concat separator pieces))%res
  | VUndefined | VNull => Throw (TypeError (ReadPropertyOfNullish "join"))
  | _ => Throw (TypeError (NotAFunction "join"))
  end.

(** The truth value of [v?.length]: [undefined] for [null] and [undefined],
    the number of elements of an array, the length of a string, the
    property of that name of an object, and [undefined] for the rest. *)
Definition has_length (v : value) : bool :=
  match v with
  | VArr elements => negb (Nat.eqb (length elements) 0)
  | VStr s => negb (String.eqb s "")
  | VObj properties => ToBoolean (default VUndefined (properties !! "length"))
  | _ => false
  end.

(** The name of the file of a URL's pathname ending in ".json", as
    [getCleanDepName] derives it. *)
Definition shortName (url : URL) : option string :=
  if endsWith (pathname url) ".json"
  then
    let parts := split "/" (pathname url) in
    match nth_error parts (length parts - 1) with
    | Some filename => Some (replace ".json" "" filename)
    | None => None
    end
  else None.

(** [getCleanDepName(dep)] for whatever the array of dependencies holds:
    [new URL] turns its argument into a string first, and what this throws
    is caught as the rest is. *)
Definition getCleanDepName_value (dep : value) : value :=
  match ToString dep with
  | Throw _ => dep
  | Ok s =>
      match new_URL s with
      | None => dep
      | Some url =>
          match shortName url with
          | Some short => VStr short
          | None => dep
          end
      end
  end.

(** One section of the markdown:
    [v?.length ? `${heading}\n${v.map(item).join("\n")}` : ""] *)
Definition markdownSection (heading : string) (v : value)
    (item : value -> result string) : result string :=
  if has_length v
  then (let* items := js_map v item in
        Ok (heading +:+ nl +:+ String.concat nl items))%res
  else Ok "".

Definition dependencyItem (dep : value) : result string :=
  (let* text := ToString dep in Ok ("* " +:+ text))%res.

Definition registryDependencyItem (dep : value) : result string :=
  (let* text := ToString (getCleanDepName_value dep) in Ok ("* " +:+ text))%res.

Definition fileItem (file : value) : result string :=
  (let* text := ToString file in Ok ("* `" +:+ text +:+ "`"))%res.

(** [component.description || "*No description available.*"] *)
Definition descriptionOrDefault (component : Component) : value :=
  if ToBoolean (description component) then description component
  else VStr "*No description available.*".

Definition detailMarkdown (component : Component) : result string :=
  (let* componentName := ToString (name component) in
   let* descriptionText := ToString (descriptionOrDefault component) in
   let* dependenciesSection :=
     markdownSection "**Dependencies:**" (dependencies component) dependencyItem in
   let* registryDependenciesSection :=
     markdownSection "**Registry Dependencies:**" (registryDependencies component)
       registryDependencyItem in
   let* filesSection :=
     markdownSection "**Files:**" (files component) fileItem in
   Ok (nl +:+ "# " +:+ componentName +:+ nl +:+ nl
         +:+ descriptionText +:+ nl +:+ nl
         +:+ dependenciesSection +:+ nl +:+ nl
         +:+ registryDependenciesSection +:+ nl +:+ nl
         +:+ filesSection +:+ nl +:+ "          "))%res.

(** [component.description || component.files.join(", ")] *)
Definition subtitle (component : Component) : result value :=
  if ToBoolean (description component) then Ok (description component)
  else (let* joined := js_join (files component) ", " in Ok (VStr joined))%res.

(** A field that may be [undefined]. *)
Definition undefined_or (check : value -> bool) (v : value) : bool :=
  match v with
  | VUndefined => true
  | _ => check v
  end.

(** A component as the [Component] interface declares it. *)
Definition conforms (c : Component) : bool :=
  is_string (name c)
  && undefined_or is_string (description c)
  && undefined_or is_string_array (dependencies c)
  && undefined_or is_string_array (registryDependencies c)
  && is_string_array (files c)
  && is_string (type c).

(** The message the [catch] of [fetchComponents] keeps of what was thrown. *)
Definition errorMessageOf (e : thrown) : string :=
  match e with
  | ThrownError _ message => message
  | ThrownOther _ => "An unknown error occurred"
  end.

Definition is_warning (e : Event) : bool :=
  match e with
  | ConsoleWarn _ => true
  | _ => false
  end.

Definition nullish (v : value) : bool :=
  match v with
  | VUndefined | VNull => true
  | _ => false
  end.

End Rows.

(** * The fetch as a function of the network's answer *)

Section Outcome.
Context `{Host}.

(** What a fetch does before it hears from the network. *)
Definition opening (registry : Registry.t) : list Event :=
  [ SetIsLoading true; SetError None; SetComponents [];
    ShowToast (Toast.mk Toast.Animated
                 ("Fetching from " +:+ Registry.name registry +:+ "...") None);
    Fetch (Registry.jsonUrl registry) ].

(** The branch of the registry, with what it writes to the console. *)
Definition normalise (registry : Registry.t) (rawData : value)
  : result (list Component) * list Event :=
  if String.eqb (Registry.name registry) "Shadcn UI" then (processShadcn rawData, [])
  else if String.eqb (Registry.name registry) "Kitze UI" then (processKitze rawData, [])
  else
    let warning :=
      ConsoleWarn ("Processing unknown registry type: " +:+ Registry.name registry
                     +:+ ". Assuming direct array structure.") in
    match processUnknown rawData with
    | Ok comps => (Ok comps, [warning])
    | Throw e =>
        (Throw (Error ("Failed to process data structure for registry: "
                         +:+ Registry.name registry)),
         [ warning;
           ConsoleError ("Error processing fallback registry "
                           +:+ Registry.name registry +:+ ":") e ])
    end.

(** What the [try] of a fetch comes to, given the network's answer. *)
Definition attempt (registry : Registry.t) (answer : result Response)
  : result (list Component) * list Event :=
  match answer with
  | Throw e => (Throw e, [])
  | Ok response =>
      if ok response
      then match json response with
           | Throw e => (Throw e, [])
           | Ok rawData => normalise registry rawData
           end
      else (Throw (Error (httpErrorMessage response (bestEffortBody (text response)))), [])
  end.

(** How a fetch ends: with the list and the success toast, or with the
    error and the failure toast. *)
Definition closing (registry : Registry.t) (outcome : result (list Component))
  : list Event :=
  match outcome with
  | Ok comps =>
      [ SetComponents (List.filter isValidComponent comps);
        ShowToast (Toast.mk Toast.Success "Components loaded"
                     (Some (nat_to_string (length (List.filter isValidComponent comps))
                              +:+ " components found in " +:+ Registry.name registry))) ]
  | Throw e =>
      [ ConsoleError "Fetch error:" e;
        SetError (Some (errorMessageOf e));
        ShowToast (Toast.mk Toast.Failure "Error Fetching Components"
                     (Some (errorMessageOf e))) ]
  end.

Definition fetched (selected : option Registry.t) (outcome : result (list Component))
  : State :=
  match outcome with
  | Ok comps => mkState selected (List.filter isValidComponent comps) false None
  | Throw e => mkState selected [] false (Some (errorMessageOf e))
  end.

End Outcome.

(** Running a handler: its definition and those of the combinators unfolded. *)
Ltac run :=
  unfold handleSelectRegistry, handleGoBack, handlePasteComponentUrl,
    fetchComponents, fetchComponents_try, fetchComponents_catch, processFallback,
    setSelectedRegistry, setComponents, setIsLoading, setError, showToast, fetch,
    try_finally, try_catch, bind, ret, throw, lift, emit, modify;
  simpl.

(** Case analysis on what a run meets: the answer of the network, the
    response's flags and bodies, the registry's name, the normalisation. *)
Ltac meet :=
  repeat match goal with
    | |- context [network ?e ?u] => destruct (network e u) eqn:?; simpl
    | |- context [ok ?r] => destruct (ok r) eqn:?; simpl
    | |- context [text ?r] => destruct (text r) eqn:?; simpl
    | |- context [json ?r] => destruct (json r) eqn:?; simpl
    | |- context [String.eqb ?a ?b] => destruct (String.eqb a b) eqn:?; simpl
    | |- context [processShadcn ?d] => destruct (processShadcn d) eqn:?; simpl
    | |- context [processKitze ?d] => destruct (processKitze d) eqn:?; simpl
    | |- context [processUnknown ?d] => destruct (processUnknown d) eqn:?; simpl
    end.

(** A list of events ends with given ones. *)
Ltac ends_with :=
  repeat first [ now (exists []) | apply suffix_cons_r | apply suffix_app_r ].

(** ** A concrete host

    To run the command on examples: numbers are integers, and [new URL]
    accepts the plain absolute [http://] and [https://] URLs (a host, then a
    path up to the first [?] or [#]; nothing is normalised or decoded). *)

Fixpoint take_until (stop : ascii -> bool) (s : string) : string * string :=
  match s with
  | EmptyString => (EmptyString, EmptyString)
  | String c rest =>
      if stop c then (EmptyString, s)
      else let (taken, left) := take_until stop rest in (String c taken, left)
  end.

Definition plain_new_URL (s : string) : option URL :=
  let after_scheme :=
    if String.prefix "https://" s then Some (substring 8 (String.length s) s)
    else if String.prefix "http://" s then Some (substring 7 (String.length s) s)
    else None in
  match after_scheme with
  | None => None
  | Some rest =>
      let (host, after_host) :=
        take_until (fun c => Ascii.eqb c "/" || Ascii.eqb c "?" || Ascii.eqb c "#") rest in
      if String.eqb host "" then None
      else
        let (path, _) :=
          take_until (fun c => Ascii.eqb c "?" || Ascii.eqb c "#") after_host in
        Some (mkURL (if String.eqb path "" then "/" else path))
  end.

Definition plain_host : Host := {|
  number := Z;
  number_truthy := fun z => negb (Z.eqb z 0);
  number_to_string := fun z => NilZero.string_of_int (Z.to_int z);
  new_URL := plain_new_URL;
  type_error_message := fun kind =>
    match kind with
    | NotAFunction property => property +:+ " is not a function"
    | ReadPropertyOfNullish property =>
        "Cannot read properties of null (reading '" +:+ property +:+ "')"
    | CannotConvertToPrimitive => "Cannot convert object to primitive value"
    end
|}.

Section Examples.
#[local] Existing Instance plain_host.

(** A JSON object written as its list of members (with distinct keys). *)
Definition object (members : list (string * value)) : value :=
  VObj (list_to_map members).

Definition strings (l : list string) : value := VArr (List.map VStr l).

Definition okResponse (document : value) : Response :=
  mkResponse true 200%Z "OK" (Ok "") (Ok document).

(** A world in which every request gets the same answer. *)
Definition answering (answer : result Response) : World :=
  mkWorld initialState []
    (mkEnvironment (fun _ => answer) (fun _ => Ok tt) (Ok tt)).

Definition shadcn : Registry.t := nth 0 availableRegistries (Registry.mk "" "" "" "" None).
Definition kitze : Registry.t := nth 1 availableRegistries (Registry.mk "" "" "" "" None).

(** A registry the command does not know. *)
Definition acme : Registry.t :=
  Registry.mk "Acme UI" "https://acme.example/registry.json"
    "https://acme.example/r/" "Components of Acme" None.

(** An index of the "Shadcn UI" registry with two entries, the second one
    named as the fallback's placeholder is. *)
Definition buttonEntry : value :=
  object [ ("name", VStr "button");
           ("dependencies", strings ["@radix-ui/react-slot"]);
           ("files", strings ["ui/button.tsx"]);
           ("type", VStr "components:ui") ].

Definition placeholderEntry : value :=
  object [ ("name", VStr "Unknown Component");
           ("files", strings ["ui/unknown.tsx"]);
           ("type", VStr "components:ui") ].

Definition shadcnIndex : value := VArr [buttonEntry; placeholderEntry].

Definition buttonComponent : Component :=
  mkComponent (VStr "button") VUndefined (strings ["@radix-ui/react-slot"])
    VUndefined (strings ["ui/button.tsx"]) (VStr "components:ui").

(** A document of the "Kitze UI" registry with one entry of two files. *)
Definition kitzeEntry : value :=
  object [ ("name", VStr "calendar");
           ("description", VStr "A date picker");
           ("registryDependencies", strings ["https://ui.kitze.io/r/button.json"]);
           ("files", VArr [ object [ ("path", VStr "registry/ui/calendar.tsx");
                                     ("type", VStr "registry:ui") ];
                            object [ ("path", VStr "registry/lib/dates.ts");
                                     ("type", VStr "registry:lib") ] ]);
           ("type", VStr "registry:ui") ].

Definition kitzeDocument : value :=
  object [ ("$schema", VStr "https://ui.shadcn.com/schema/registry.json");
           ("name", VStr "kitze-ui");
           ("homepage", VStr "https://ui.kitze.io");
           ("items", VArr [kitzeEntry]) ].

(** A response that is no success, whose body cannot be read. *)
Definition notFound : Response :=
  mkResponse false 404%Z "Not Found" (Throw (Error "body used already")) (Ok VNull).

(** Answers of an unknown registry: an array with elements that are no
    objects, and one with a file that [String] cannot convert. *)
Definition mixedArray : list value :=
  [ VNull; VNum 3%Z; VStr "card";
    object [ ("name", VStr "card"); ("files", VArr [VNum 1%Z; VNull; VStr "card.tsx"]) ] ].

Definition unprintableArray : list value :=
  [ object [ ("name", VStr "card");
             ("files", VArr [object [("toString", VNull)]]) ] ].

(** An entry of the "Shadcn UI" index without its files. *)
Definition filelessEntry : value :=
  object [ ("name", VStr "badge"); ("type", VStr "components:ui") ].

Definition calendarComponent : Component :=
  mkComponent (VStr "calendar") (VStr "A date picker") VUndefined
    (strings ["https://ui.kitze.io/r/button.json"])
    (strings ["registry/ui/calendar.tsx"; "registry/lib/dates.ts"])
    (VStr "registry:ui").

(** A world whose network is down and whose clipboard refuses. *)
Definition offline : World :=
  mkWorld (mkState (Some kitze) [calendarComponent] false (Some "stale"))
    [Fetch "https://ui.kitze.io/registry.json"]
    (mkEnvironment (fun _ => Throw (ThrownError "FetchError" "getaddrinfo ENOTFOUND"))
       (fun _ => Throw (Error "No frontmost application")) (Ok tt)).

(** Entries of the "Shadcn UI" index whose names are arrays. *)
Definition arrayNamedEntries : list value :=
  [ object [ ("name", VArr []);
             ("files", strings ["ui/nameless.tsx"]);
             ("type", VStr "components:ui") ];
    object [ ("name", VArr [VStr "Unknown Component"]);
             ("files", strings ["ui/unknown.tsx"]);
             ("type", VStr "components:ui") ] ].

(** The same outage met with nothing left from before. *)
Definition offlineFresh : World :=
  mkWorld (mkState (Some kitze) [] false None) [] (environment offline).

(** A document that is an object where an array is expected. *)
Definition notAnArray : value := object [ ("components", VArr []) ].

(** A request that fails with an error without a message. *)
Definition speechless : World := answering (Throw (ThrownError "Error" "")).

Definition cardComponent : Component :=
  mkComponent (VStr "card") VUndefined VUndefined VUndefined
    (strings ["1"; "null"; "card.tsx"]) (VStr "unknown").

End Examples.

(** * Properties *)

(** ** Strings *)

Section StringFacts.

Lemma app_empty_r (s : string) : s +:+ "" = s.
Proof. induction s as [|c s IH]; simpl; congruence. Qed.

Lemma app_assoc' (a b c : string) : (a +:+ b) +:+ c = a +:+ (b +:+ c).
Proof. induction a as [|x a IH]; simpl; congruence. Qed.

Lemma length_app (a b : string) :
  String.length (a +:+ b) = String.length a + String.length b.
Proof. induction a as [|x a IH]; simpl; congruence. Qed.

Lemma substring_all (s : string) (m : nat) :
  String.length s <= m -> substring 0 m s = s.
Proof.
  revert m; induction s as [|c s IH]; intros [|m] Hm; simpl in *;
    try reflexivity; try lia.
  f_equal. apply IH. lia.
Qed.

Lemma substring_skip (a b : string) (m : nat) :
  substring (String.length a) m (a +:+ b) = substring 0 m b.
Proof. induction a as [|x a IH]; simpl; [reflexivity | exact IH]. Qed.

Lemma substring_split (s : string) (m : nat) :
  m <= String.length s ->
  s = substring 0 m s +:+ substring m (String.length s - m) s.
Proof.
  revert m; induction s as [|c s IH]; intros [|m] Hm; simpl in *;
    try reflexivity; try lia.
  - f_equal. symmetry. apply substring_all. lia.
  - f_equal. apply IH. lia.
Qed.

Lemma prefix_app (p s : string) :
  String.prefix p s = true <-> exists t, s = p +:+ t.
Proof.
  revert s; induction p as [|c p IH]; intros s; simpl.
  - split; [intros _; exists s; reflexivity | destruct s; reflexivity].
  - destruct s as [|d s]; [split; [discriminate | intros [t Ht]; discriminate]|].
    simpl. destruct (ascii_dec c d) as [->|Hne].
    + rewrite IH. split; intros [t Ht]; exists t; congruence.
    + split; [discriminate | intros [t Ht]; congruence].
Qed.

Lemma endsWith_app (s suffix : string) :
  endsWith s suffix = true <-> exists before, s = before +:+ suffix.
Proof.
  unfold endsWith. rewrite andb_true_iff, Nat.leb_le, String.eqb_eq. split.
  - intros [Hle Hsub].
    exists (substring 0 (String.length s - String.length suffix) s).
    pose proof (substring_split s (String.length s - String.length suffix)) as Hs.
    replace (String.length s - (String.length s - String.length suffix))
      with (String.length suffix) in Hs by lia.
    rewrite Hsub in Hs. apply Hs. lia.
  - intros [before ->]. rewrite length_app. split; [lia|].
    replace (String.length before + String.length suffix - String.length suffix)
      with (String.length before) by lia.
    rewrite substring_skip. apply substring_all. lia.
Qed.

Lemma has_char_app (c : ascii) (a b : string) :
  has_char c (a +:+ b) = has_char c a || has_char c b.
Proof.
  induction a as [|x a IH]; simpl; [reflexivity|].
  rewrite IH. apply orb_assoc.
Qed.

Lemma split_nonempty (sep : ascii) (s : string) : split sep s <> [].
Proof.
  destruct s as [|c s]; simpl; [discriminate|].
  destruct (Ascii.eqb c sep); [discriminate|].
  destruct (split sep s); discriminate.
Qed.

Lemma concat_split (sep : ascii) (s : string) :
  String.concat (String sep "") (split sep s) = s.
Proof.
  induction s as [|c s IH]; [reflexivity|].
  simpl split. pose proof (split_nonempty sep s) as Hne.
  destruct (Ascii.eqb_spec c sep) as [->|Hc].
  - destruct (split sep s) as [|piece pieces] eqn:E; [contradiction|].
    change (String.concat (String sep "") ("" :: piece :: pieces))
      with (String sep (String.concat (String sep "") (piece :: pieces))).
    now rewrite IH.
  - destruct (split sep s) as [|piece [|piece' pieces]] eqn:E; [contradiction| |].
    + simpl in *. now rewrite IH.
    + change (String c (piece +:+ String sep "" +:+
                String.concat (String sep "") (piece' :: pieces)) = String c s).
      f_equal. exact IH.
Qed.

Lemma split_sep_free (sep : ascii) (s : string) :
  Forall (fun piece => has_char sep piece = false) (split sep s).
Proof.
  induction s as [|c s IH]; simpl.
  - repeat constructor.
  - destruct (Ascii.eqb_spec c sep) as [->|Hc].
    + constructor; [reflexivity | exact IH].
    + destruct (split sep s) as [|piece pieces]; [repeat constructor|].
      * simpl. apply Ascii.eqb_neq in Hc. now rewrite Hc.
      * inversion IH; subst. constructor; [|assumption].
        simpl. apply Ascii.eqb_neq in Hc. now rewrite Hc.
Qed.

Lemma split_sep_free_whole (sep : ascii) (s : string) :
  has_char sep s = false -> split sep s = [s].
Proof.
  induction s as [|c s IH]; simpl; [reflexivity|].
  intros Hs. apply orb_false_iff in Hs as [Hc Hs].
  rewrite Hc, (IH Hs). reflexivity.
Qed.

Lemma nth_error_last {A : Type} (l : list A) (d : A) :
  l <> [] -> nth_error l (length l - 1) = Some (List.last l d).
Proof.
  induction l as [|x [|y l] IH]; intros Hl; [contradiction | reflexivity |].
  specialize (IH ltac:(discriminate)).
  replace (length (x :: y :: l) - 1) with (S (length (y :: l) - 1))
    by (simpl; lia).
  exact IH.
Qed.

Lemma last_segment_split (sep : ascii) (s : string) :
  last_segment sep s (List.last (split sep s) "").
Proof.
  exists (removelast (split sep s)).
  rewrite <- (app_removelast_last "" (split_nonempty sep s)).
  split; [symmetry; apply concat_split | apply split_sep_free].
Qed.

Lemma last_split_suffix (sep : ascii) (before suffix : string) :
  has_char sep suffix = false ->
  exists before',
    List.last (split sep (before +:+ suffix)) "" = before' +:+ suffix.
Proof.
  intros Hfree. induction before as [|c before [before' IH]].
  - exists "". simpl. now rewrite split_sep_free_whole.
  - simpl split. pose proof (split_nonempty sep (before +:+ suffix)) as Hne.
    destruct (Ascii.eqb c sep).
    + exists before'. rewrite <- IH.
      destruct (split sep (before +:+ suffix)); [contradiction | reflexivity].
    + destruct (split sep (before +:+ suffix)) as [|piece [|piece' pieces]];
        [contradiction | |].
      * exists (String c before'). simpl in *. now rewrite IH.
      * exists before'. rewrite <- IH. reflexivity.
Qed.

Lemma replace_eq (pattern replacement s : string) :
  replace pattern replacement s =
  if String.prefix pattern s
  then replacement +:+ substring (String.length pattern) (String.length s) s
  else match s with
       | EmptyString => EmptyString
       | String c rest => String c (replace pattern replacement rest)
       end.
Proof. destruct s; reflexivity. Qed.

Lemma replace_prefix (pattern replacement s t : string) :
  s = pattern +:+ t -> replace pattern replacement s = replacement +:+ t.
Proof.
  intros ->. rewrite replace_eq.
  assert (String.prefix pattern (pattern +:+ t) = true) as ->
    by (apply prefix_app; eauto).
  rewrite substring_skip, substring_all; [reflexivity|].
  rewrite length_app. lia.
Qed.

Lemma replace_first (pattern replacement s : string) :
  (exists before after,
      s = before +:+ pattern +:+ after
      /\ replace pattern replacement s = before +:+ replacement +:+ after
      /\ forall before' after',
           s = before' +:+ pattern +:+ after' ->
           String.length before <= String.length before')
  \/ ((forall before after, s <> before +:+ pattern +:+ after)
      /\ replace pattern replacement s = s).
Proof.
  assert (Hstart : forall s, String.prefix pattern s = true ->
            exists before after,
              s = before +:+ pattern +:+ after
              /\ replace pattern replacement s = before +:+ replacement +:+ after
              /\ forall before' after',
                   s = before' +:+ pattern +:+ after' ->
                   String.length before <= String.length before').
  { intros s' Hp. apply prefix_app in Hp as [t Ht]. exists "", t.
    split; [exact Ht|]. split; [|intros; simpl; lia].
    change ("" +:+ replacement +:+ t) with (replacement +:+ t).
    now apply replace_prefix. }
  induction s as [|c s IH];
    match goal with
    | |- context [replace _ _ ?x] => destruct (String.prefix pattern x) eqn:Hp
    end; auto; rewrite replace_eq, Hp.
  - right. split; [|reflexivity]. intros [|x before] after Hs.
    + assert (String.prefix pattern "" = true) by (apply prefix_app; eauto).
      congruence.
    + discriminate.
  - assert (Hhead : forall before after,
               String c s = before +:+ pattern +:+ after ->
               exists before', before = String c before'
                               /\ s = before' +:+ pattern +:+ after).
    { intros [|x before] after Hs.
      - assert (String.prefix pattern (String c s) = true)
          by (apply prefix_app; eauto).
        congruence.
      - simpl in Hs. injection Hs as -> ->. eauto. }
    destruct IH as [(before & after & Hs & Hr & Hfirst) | [Hnone Hr]].
    + left. exists (String c before), after. rewrite Hr. simpl.
      split; [now rewrite <- Hs|]. split; [reflexivity|].
      intros before' after' Hs'.
      apply Hhead in Hs' as (b & -> & Hb). simpl.
      specialize (Hfirst _ _ Hb). lia.
    + right. rewrite Hr. split; [|reflexivity]. intros before after Hs.
      apply Hhead in Hs as (b & -> & Hb). exact (Hnone _ _ Hb).
Qed.

End StringFacts.

(** ** Names of registry dependencies *)

Section RegistryDependencyNames.
Context `{Host}.

(** C10. For a registry dependency that parses as a URL whose pathname ends
    with ".json", the name shown is the last "/"-separated segment of the
    pathname without the first occurrence of ".json" in it; a dependency that
    is no such URL (no URL at all, or one with another pathname) is shown
    unchanged. *)
Theorem getCleanDepName_short_name (dep : string) :
  (forall url,
      new_URL dep = Some url ->
      endsWith (pathname url) ".json" = true ->
      exists filename,
        last_segment "/" (pathname url) filename
        /\ without_first ".json" filename (getCleanDepName dep))
  /\ ((forall url, new_URL dep = Some url -> endsWith (pathname url) ".json" = false) ->
      getCleanDepName dep = dep).
Proof.
  unfold getCleanDepName. split.
  - intros url -> Hends. rewrite Hends.
    rewrite (nth_error_last _ "" (split_nonempty "/" (pathname url))).
    exists (List.last (split "/" (pathname url)) ""). split.
    + apply last_segment_split.
    + apply endsWith_app in Hends as [before Hpath].
      destruct (last_split_suffix "/" before ".json" eq_refl) as [stem Hstem].
      rewrite <- Hpath in Hstem.
      destruct (replace_first ".json" "" (List.last (split "/" (pathname url)) ""))
        as [(b & a & Hs & Hr & Hfirst) | [Hnone _]].
      * exists b, a. rewrite Hr. now repeat split.
      * exfalso. apply (Hnone stem ""). now rewrite app_empty_r.
  - intros Hother. destruct (new_URL dep) as [url|]; [|reflexivity].
    now rewrite (Hother url eq_refl).
Qed.

End RegistryDependencyNames.

(** ** The state machine *)

Section StateMachine.
Context `{Host}.

(** C5. The back action leads to the unselected state from any state: no
    registry is selected, no component is loaded and no error is left. *)
Theorem handleGoBack_clears (w : World) :
  fst (handleGoBack w) = Ok tt
  /\ selectedRegistry (state (snd (handleGoBack w))) = None
  /\ components (state (snd (handleGoBack w))) = []
  /\ error (state (snd (handleGoBack w))) = None
  /\ phase (state (snd (handleGoBack w))) = Unselected
  /\ render (state (snd (handleGoBack w)))
     = RegistryList (isLoading (state w)) None availableRegistries.
Proof. run. repeat split. Qed.

(** C9. A fetch starts by emptying the list of components and clearing the
    error, then announces itself and only then issues its one request: at
    that moment, whatever an earlier fetch left is gone. *)
Theorem fetchComponents_resets_first (registry : Registry.t) (w : World) :
  exists rest,
    log (snd (fetchComponents registry w))
    = log w
        ++ [SetIsLoading true; SetError None; SetComponents []]
        ++ [ShowToast (Toast.mk Toast.Animated
                         ("Fetching from " +:+ Registry.name registry +:+ "...") None);
            Fetch (Registry.jsonUrl registry)]
        ++ rest
    /\ existsb is_request rest = false
    /\ components (replay [SetIsLoading true; SetError None; SetComponents []] (state w)) = []
    /\ error (replay [SetIsLoading true; SetError None; SetComponents []] (state w)) = None
    /\ isLoading (replay [SetIsLoading true; SetError None; SetComponents []] (state w)) = true
    /\ state (snd (fetchComponents registry w))
       = replay ([SetIsLoading true; SetError None; SetComponents []] ++ rest) (state w).
Proof.
  run. meet; rewrite <- ?app_assoc; simpl; eexists; (split; [reflexivity|]);
    repeat split.
Qed.

Lemma isValidComponent_meaningful (c : Component) :
  isValidComponent c = true <-> meaningful_name (name c).
Proof.
  unfold isValidComponent, meaningful_name. rewrite andb_true_iff. split.
  - intros [Htrue Hneq]. repeat split; try assumption;
      intros E; rewrite E in *; simpl in *; discriminate.
  - intros (Htrue & _ & _ & _ & Hneq). split; [assumption|].
    destruct (name c); try reflexivity. simpl.
    apply negb_true_iff, String.eqb_neq. congruence.
Qed.

(** C4. When the request for the registry's document is answered with a
    status that is no success, the fetch throws an error whose message
    has the status code, the status text and the body of the response (or
    "Unknown error" when the body cannot be read), and this message becomes
    the error of the state, which the view shows. *)
Theorem fetchComponents_http_failure
    (registry : Registry.t) (w : World) (response : Response) :
  network (environment w) (Registry.jsonUrl registry) = Ok response ->
  ok response = false ->
  fst (fetchComponents_try registry (Registry.jsonUrl registry) w)
  = Throw (Error (httpErrorMessage response (bestEffortBody (text response))))
  /\ error (state (snd (fetchComponents registry w)))
     = Some (httpErrorMessage response (bestEffortBody (text response)))
  /\ components (state (snd (fetchComponents registry w))) = []
  /\ contains (httpErrorMessage response (bestEffortBody (text response)))
       (number_to_string (status response))
  /\ contains (httpErrorMessage response (bestEffortBody (text response)))
       (statusText response)
  /\ contains (httpErrorMessage response (bestEffortBody (text response)))
       (bestEffortBody (text response))
  /\ render (state (snd (handleSelectRegistry registry w)))
     = ComponentList false (Registry.name registry +:+ " Components")
         (Some (EmptyView.mk "Error Fetching Components"
                  (httpErrorMessage response (bestEffortBody (text response)))))
         None [].
Proof.
  intros Hnet Hok. repeat split.
  - run. rewrite Hnet. simpl. rewrite Hok. simpl.
    destruct (text response); reflexivity.
  - run. rewrite Hnet. simpl. rewrite Hok. simpl.
    destruct (text response); reflexivity.
  - run. rewrite Hnet. simpl. rewrite Hok. simpl.
    destruct (text response); reflexivity.
  - exists "HTTP ", (": " +:+ statusText response +:+ " - "
                       +:+ bestEffortBody (text response)).
    reflexivity.
  - exists ("HTTP " +:+ number_to_string (status response) +:+ ": "),
      (" - " +:+ bestEffortBody (text response)).
    unfold httpErrorMessage. now rewrite !app_assoc'.
  - exists ("HTTP " +:+ number_to_string (status response) +:+ ": "
              +:+ statusText response +:+ " - "), "".
    unfold httpErrorMessage. now rewrite !app_assoc', app_empty_r.
  - run. rewrite Hnet. simpl. rewrite Hok. simpl.
    destruct (text response); reflexivity.
Qed.

End StateMachine.

(** ** Normalisation of the two known registries *)

Section Normalisation.
Context `{Host}.

Lemma map_result_Forall2 {A B : Type} (f : A -> result B) (l : list A) :
  (forall x, In x l -> exists y, f x = Ok y) ->
  exists ys, map_result f l = Ok ys /\ Forall2 (fun x y => f x = Ok y) l ys.
Proof.
  induction l as [|x l IH]; intros Hall; simpl.
  - exists []. split; [reflexivity | constructor].
  - destruct (Hall x (or_introl eq_refl)) as [y Hy].
    destruct IH as (ys & Hys & Hrel); [intros; apply Hall; now right|].
    exists (y :: ys). rewrite Hy, Hys. split; [reflexivity | now constructor].
Qed.

Lemma Forall2_In_l {A B : Type} (R : A -> B -> Prop) (l : list A) (l' : list B) (x : A) :
  Forall2 R l l' -> In x l -> exists y, In y l' /\ R x y.
Proof.
  induction 1 as [|a b l l' Hab _ IH]; intros Hin; [contradiction|].
  destruct Hin as [->|Hin].
  - exists b. split; [now left | assumption].
  - destruct (IH Hin) as (y & Hy & Hxy). exists y. split; [now right | assumption].
Qed.

Lemma Forall2_impl' {A B : Type} (R S : A -> B -> Prop) (l : list A) (l' : list B) :
  Forall2 R l l' -> (forall x y, In x l -> R x y -> S x y) -> Forall2 S l l'.
Proof.
  induction 1 as [|a b l l' Hab _ IH]; intros Himpl; constructor.
  - apply Himpl; [now left | assumption].
  - apply IH. intros x y Hx. apply Himpl. now right.
Qed.

Lemma Get_own (v : value) (key : string) (field : value) :
  own v key = Some field -> Get v key = Ok field.
Proof. destruct v; simpl; try discriminate. now intros ->. Qed.

(** A non-empty name other than the placeholder passes the filter. *)
Lemma isValidComponent_string (c : Component) (n : string) :
  name c = VStr n -> n <> "" -> n <> "Unknown Component" ->
  isValidComponent c = true.
Proof.
  intros Hname Hne Hsentinel. unfold isValidComponent. rewrite Hname. simpl.
  apply andb_true_iff. split; apply negb_true_iff, String.eqb_neq; assumption.
Qed.

Lemma forallb_In {A : Type} (f : A -> bool) (l : list A) (x : A) :
  forallb f l = true -> In x l -> f x = true.
Proof. intros Hall Hx. now apply (proj1 (forallb_forall f l) Hall). Qed.

Lemma required_own (check : value -> bool) (v : value) (key : string) :
  required check (own v key) = true ->
  exists properties field,
    v = VObj properties /\ properties !! key = Some field /\ check field = true.
Proof.
  destruct v; simpl; try discriminate.
  destruct (properties !! key) eqn:E; simpl; [eauto | discriminate].
Qed.

Lemma shadcnComponent_object (properties : gmap string value) :
  shadcnComponent (VObj properties)
  = Ok (mkComponent
          (default VUndefined (properties !! "name"))
          VUndefined
          (default VUndefined (properties !! "dependencies"))
          (default VUndefined (properties !! "registryDependencies"))
          (default VUndefined (properties !! "files"))
          (default VUndefined (properties !! "type"))).
Proof. reflexivity. Qed.

(** C1, as the code has it. For a well-formed index of the "Shadcn UI"
    registry, every entry whose name is not empty and is not the placeholder
    "Unknown Component" is in the list of components after the fetch, with
    the [files] array of the entry as its files. *)
Theorem shadcn_entries_listed
    (registry : Registry.t) (w : World) (response : Response)
    (entries : list value) (entry : value) (n : string) :
  Registry.name registry = "Shadcn UI" ->
  network (environment w) (Registry.jsonUrl registry) = Ok response ->
  ok response = true ->
  json response = Ok (VArr entries) ->
  wellFormedShadcnIndex (VArr entries) = true ->
  In entry entries ->
  own entry "name" = Some (VStr n) ->
  n <> "" ->
  n <> "Unknown Component" ->
  exists c,
    In c (components (state (snd (fetchComponents registry w))))
    /\ name c = VStr n
    /\ own entry "files" = Some (files c).
Proof.
  intros Hname Hnet Hok Hjson Hwf Hin Hn Hne Hsentinel. simpl in Hwf.
  destruct (map_result_Forall2 shadcnComponent entries) as (comps & Hmap & Hrel).
  { intros e He. apply (forallb_In _ _ _ Hwf) in He.
    unfold wellFormedShadcnEntry in He. rewrite !andb_true_iff in He.
    destruct He as [[[[He _] _] _] _].
    apply required_own in He as (properties & _ & -> & _).
    rewrite shadcnComponent_object. eauto. }
  destruct (Forall2_In_l _ _ _ _ Hrel Hin) as (c & Hc & Hentry).
  apply (forallb_In _ _ _ Hwf) in Hin.
  unfold wellFormedShadcnEntry in Hin. rewrite !andb_true_iff in Hin.
  destruct Hin as [[[_ _] Hfiles] _].
  apply required_own in Hfiles as (properties & field & -> & Hfield & _).
  rewrite shadcnComponent_object in Hentry. injection Hentry as <-.
  simpl in *. exists (mkComponent
          (default VUndefined (properties !! "name"))
          VUndefined
          (default VUndefined (properties !! "dependencies"))
          (default VUndefined (properties !! "registryDependencies"))
          (default VUndefined (properties !! "files"))
          (default VUndefined (properties !! "type"))).
  rewrite Hn, Hfield in *. simpl. repeat split.
  run. rewrite Hnet. simpl. rewrite Hok, Hjson, Hname. simpl.
  unfold processShadcn. simpl. rewrite Hmap. simpl.
  apply filter_In. split; [assumption|].
  now apply (isValidComponent_string _ n).
Qed.

Lemma kitze_paths (fileObjects : list value) :
  forallb wellFormedKitzeFile fileObjects = true ->
  exists paths,
    map_result (fun file => Get file "path") fileObjects = Ok (List.map VStr paths)
    /\ Forall2 (fun file p => own file "path" = Some (VStr p)) fileObjects paths.
Proof.
  induction fileObjects as [|file l IH]; simpl; intros Hwf.
  - exists []. split; [reflexivity | constructor].
  - apply andb_true_iff in Hwf as [Hfile Hl].
    destruct (IH Hl) as (paths & Hmap & Hrel).
    unfold wellFormedKitzeFile in Hfile. apply andb_true_iff in Hfile as [Hpath _].
    apply required_own in Hpath as (properties & field & -> & Hfield & Hstring).
    destruct field; try discriminate.
    exists (s :: paths). simpl. rewrite Hfield, Hmap. simpl.
    split; [reflexivity | now constructor].
Qed.

Lemma kitzeComponent_wellFormed (entry : value) :
  wellFormedKitzeEntry entry = true ->
  exists c fileObjects paths,
    kitzeComponent entry = Ok c
    /\ own entry "files" = Some (VArr fileObjects)
    /\ Forall2 (fun file p => own file "path" = Some (VStr p)) fileObjects paths
    /\ files c = VArr (List.map VStr paths).
Proof.
  unfold wellFormedKitzeEntry. rewrite !andb_true_iff.
  intros [[_ Hfiles] _].
  apply required_own in Hfiles as (properties & field & -> & Hfield & Hcheck).
  destruct field as [| | | | |fileObjects|]; try discriminate.
  destruct (kitze_paths fileObjects Hcheck) as (paths & Hmap & Hrel).
  eexists _, fileObjects, paths. unfold kitzeComponent. simpl.
  rewrite Hfield. simpl. rewrite Hmap. simpl. repeat split; assumption.
Qed.

(** C3. For a well-formed document of the "Kitze UI" registry, the files of
    each normalised component are the [path]s of the entry's file objects,
    in their order; the list after the fetch is made of these components. *)
Theorem kitze_files_are_paths
    (registry : Registry.t) (w : World) (response : Response)
    (rawData : value) (entries : list value) :
  Registry.name registry = "Kitze UI" ->
  network (environment w) (Registry.jsonUrl registry) = Ok response ->
  ok response = true ->
  json response = Ok rawData ->
  wellFormedKitzeRegistry rawData = true ->
  own rawData "items" = Some (VArr entries) ->
  exists comps,
    processKitze rawData = Ok comps
    /\ Forall2 (fun entry c =>
                  exists fileObjects paths,
                    own entry "files" = Some (VArr fileObjects)
                    /\ Forall2 (fun file p => own file "path" = Some (VStr p))
                         fileObjects paths
                    /\ files c = VArr (List.map VStr paths))
         entries comps
    /\ components (state (snd (fetchComponents registry w)))
       = List.filter isValidComponent comps.
Proof.
  intros Hname Hnet Hok Hjson Hwf Hitems.
  unfold wellFormedKitzeRegistry in Hwf. rewrite Hitems in Hwf. simpl in Hwf.
  destruct (map_result_Forall2 kitzeComponent entries) as (comps & Hmap & Hrel).
  { intros e He. apply (forallb_In _ _ _ Hwf) in He.
    destruct (kitzeComponent_wellFormed e He) as (c & _ & _ & Hc & _). eauto. }
  assert (Hprocess : processKitze rawData = Ok comps).
  { unfold processKitze. rewrite (Get_own _ _ _ Hitems). simpl. exact Hmap. }
  exists comps. split; [exact Hprocess|]. split.
  - apply (Forall2_impl' _ _ _ _ Hrel). intros e c He Hc.
    apply (forallb_In _ _ _ Hwf) in He.
    destruct (kitzeComponent_wellFormed e He) as (c' & fileObjects & paths & Hc' & ?).
    rewrite Hc in Hc'. injection Hc' as <-. eauto.
  - run. rewrite Hnet. simpl. rewrite Hok, Hjson, Hname. simpl.
    rewrite Hprocess. reflexivity.
Qed.

End Normalisation.

(** ** The fallback for unknown registries *)

Section Fallback.
Context `{Host}.

Lemma value_array_ind (P : value -> Prop) :
  P VUndefined -> P VNull -> (forall b, P (VBool b)) -> (forall n, P (VNum n)) ->
  (forall s, P (VStr s)) ->
  (forall elements, Forall P elements -> P (VArr elements)) ->
  (forall properties, P (VObj properties)) ->
  forall v, P v.
Proof.
  intros Hu Hn Hb Hnum Hs Harr Hobj. fix IH 1.
  intros [| |b|n|s|elements|properties];
    [exact Hu | exact Hn | apply Hb | apply Hnum | apply Hs | | apply Hobj].
  apply Harr. induction elements as [|x l IHl]; constructor; [apply IH | exact IHl].
Qed.

Lemma ToString_array (elements : list value) :
  ToString (VArr elements)
  = (let* pieces := map_result piece elements in
     Ok (String.concat "," pieces))%res.
Proof.
  simpl. f_equal. induction elements as [|x l IH]; [reflexivity|].
  simpl. rewrite IH. destruct x; reflexivity.
Qed.

Lemma map_result_Ok_inv {A B : Type} (f : A -> result B) (l : list A) (ys : list B) :
  map_result f l = Ok ys -> Forall (fun x => exists y, f x = Ok y) l.
Proof.
  revert ys; induction l as [|x l IH]; intros ys; simpl; [constructor|].
  destruct (f x) eqn:Hx; simpl; [|discriminate].
  destruct (map_result f l) eqn:Hl; simpl; [|discriminate].
  intros _. constructor; eauto.
Qed.

Lemma ToString_stringifiable (v : value) :
  stringifiable v = true <-> exists str, ToString v = Ok str.
Proof.
  induction v as [| | | | |elements IH|properties] using value_array_ind;
    try (simpl; split; eauto; fail).
  - rewrite ToString_array. simpl. split.
    + intros Hall.
      destruct (map_result_Forall2 piece elements) as (pieces & -> & _); [|simpl; eauto].
      intros x Hx. pose proof (forallb_In _ _ _ Hall Hx) as Hok.
      rewrite List.Forall_forall in IH. apply (IH x Hx) in Hok.
      destruct x; simpl; eauto.
    + intros [str Hstr].
      destruct (map_result piece elements) as [pieces|] eqn:Hpieces; [|discriminate].
      apply map_result_Ok_inv in Hpieces. apply forallb_forall. intros x Hx.
      rewrite List.Forall_forall in IH, Hpieces. apply IH; [assumption|].
      specialize (Hpieces x Hx). destruct x; simpl in *; eauto.
  - simpl. destruct (bool_decide (is_Some (properties !! "toString")));
      simpl; split; eauto; try discriminate.
    intros [str Hstr]. discriminate.
Qed.

Lemma checked_field_own (check : value -> bool) (comp : value) (key : string) :
  checked_field check comp key
  = Ok (match own comp key with
        | Some v => if check v then Some v else None
        | None => None
        end).
Proof.
  unfold checked_field. destruct comp; simpl; try reflexivity.
  destruct (properties !! key) eqn:E; reflexivity.
Qed.

Lemma string_field (comp : value) (key : string) (absent : value) :
  (let* field := checked_field is_string comp key in
   match field with
   | Some v => Ok v
   | None => Ok absent
   end)%res
  = Ok (string_or (own comp key) absent).
Proof.
  rewrite checked_field_own. simpl. unfold string_or.
  destruct (own comp key) as [[]|]; reflexivity.
Qed.

Lemma array_field (comp : value) (key : string) (absent : value) :
  stringifiable_field comp key = true ->
  exists r,
    (let* field := checked_field isArray comp key in
     match field with
     | Some v => map_String v
     | None => Ok absent
     end)%res = Ok r
    /\ stringified (own comp key) absent r.
Proof.
  unfold stringifiable_field, stringified. rewrite checked_field_own. simpl.
  destruct (own comp key) as [[| | | | |elements|]|]; simpl; eauto.
  intros Hall. unfold map_String. simpl.
  destruct (map_result_Forall2 ToString elements) as (strs & -> & Hrel); [|simpl; eauto].
  intros x Hx. apply ToString_stringifiable. exact (forallb_In _ _ _ Hall Hx).
Qed.

Lemma coerceUnknown_coerced (comp : value) :
  stringifiable_entry comp = true ->
  exists c, coerceUnknown comp = Ok c /\ coerced comp c.
Proof.
  unfold stringifiable_entry. rewrite !andb_true_iff. intros [[Hfiles Hdeps] Hregistry].
  unfold coerceUnknown.
  rewrite string_field. simpl. rewrite string_field. simpl.
  destruct (array_field comp "files" (VArr []) Hfiles) as (files & -> & ?). simpl.
  destruct (array_field comp "dependencies" VUndefined Hdeps) as (deps & -> & ?). simpl.
  destruct (array_field comp "registryDependencies" VUndefined Hregistry)
    as (registryDeps & -> & ?). simpl.
  rewrite string_field. simpl.
  eexists. split; [reflexivity|]. repeat split; assumption.
Qed.

(** Where [String] throws on an element of one of the three arrays, the
    callback throws. *)
Lemma coerceUnknown_Ok_stringifiable (comp : value) (c : Component) :
  coerceUnknown comp = Ok c -> stringifiable_entry comp = true.
Proof.
  assert (Harray : forall key absent r,
             (let* field := checked_field isArray comp key in
              match field with
              | Some v => map_String v
              | None => Ok absent
              end)%res = Ok r ->
             stringifiable_field comp key = true).
  { intros key absent r. unfold stringifiable_field. rewrite checked_field_own. simpl.
    destruct (own comp key) as [[| | | | |elements|]|]; simpl; try reflexivity.
    unfold map_String. simpl.
    destruct (map_result ToString elements) as [strs|] eqn:Hstrs; [|discriminate].
    intros _. apply map_result_Ok_inv in Hstrs. apply forallb_forall. intros x Hx.
    rewrite List.Forall_forall in Hstrs. apply ToString_stringifiable. now apply Hstrs. }
  unfold coerceUnknown, stringifiable_entry.
  rewrite string_field. simpl. rewrite string_field. simpl.
  destruct (let* field := checked_field isArray comp "files" in _)%res
    as [files|] eqn:Hfiles; [|discriminate]. simpl.
  destruct (let* field := checked_field isArray comp "dependencies" in _)%res
    as [deps|] eqn:Hdeps; [|discriminate]. simpl.
  destruct (let* field := checked_field isArray comp "registryDependencies" in _)%res
    as [registryDeps|] eqn:Hregistry; [|discriminate]. simpl.
  intros _. rewrite (Harray _ _ _ Hfiles), (Harray _ _ _ Hdeps), (Harray _ _ _ Hregistry).
  reflexivity.
Qed.

(** C8, as the code has it. For an unrecognised registry answered with a
    JSON array, the fallback makes a component of every element, objects or
    not, provided [String] converts what the element's [files],
    [dependencies] and [registryDependencies] arrays hold: the name is the
    [name] field when it is a string and "Unknown Component" otherwise, the
    description is the field when a string and undefined otherwise, the
    files are the strings of the array's elements or [[]], the two
    dependency lists are the strings of their arrays or undefined, and the
    type is the field when a string and "unknown" otherwise. The list of
    components after the fetch is made of these. *)
Theorem fallback_total_on_stringifiable
    (registry : Registry.t) (w : World) (response : Response)
    (elements : list value) :
  Registry.name registry <> "Shadcn UI" ->
  Registry.name registry <> "Kitze UI" ->
  network (environment w) (Registry.jsonUrl registry) = Ok response ->
  ok response = true ->
  json response = Ok (VArr elements) ->
  forallb stringifiable_entry elements = true ->
  exists comps,
    processUnknown (VArr elements) = Ok comps
    /\ Forall2 coerced elements comps
    /\ components (state (snd (fetchComponents registry w)))
       = List.filter isValidComponent comps.
Proof.
  intros Hshadcn Hkitze Hnet Hok Hjson Hall.
  destruct (map_result_Forall2 coerceUnknown elements) as (comps & Hmap & Hrel).
  { intros comp Hcomp. apply (forallb_In _ _ _ Hall) in Hcomp.
    destruct (coerceUnknown_coerced comp Hcomp) as (c & Hc & _). eauto. }
  exists comps. split; [exact Hmap|]. split.
  - apply (Forall2_impl' _ _ _ _ Hrel). intros comp c Hcomp Hc.
    apply (forallb_In _ _ _ Hall) in Hcomp.
    destruct (coerceUnknown_coerced comp Hcomp) as (c' & Hc' & Hcoerced).
    rewrite Hc in Hc'. now injection Hc' as <-.
  - apply String.eqb_neq in Hshadcn, Hkitze.
    run. rewrite Hnet. simpl. rewrite Hok, Hjson, Hshadcn, Hkitze. simpl.
    unfold processUnknown. simpl. rewrite Hmap. reflexivity.
Qed.

End Fallback.

(** ** Clipboard text *)

Section Clipboard.
Context `{Host}.

Lemma events_of_app {A : Type} (m : M A) (w : World) (events : list Event) :
  log (snd (m w)) = log w ++ events -> events_of m w = events.
Proof.
  intros Hlog. unfold events_of. rewrite Hlog.
  rewrite skipn_app, skipn_all, Nat.sub_diag. reflexivity.
Qed.

Lemma handlePasteComponentUrl_pasted
    (registry : Registry.t) (componentName : string) (w : World) :
  pasted (events_of (handlePasteComponentUrl registry componentName) w)
  = [manifestUrl registry componentName].
Proof.
  assert (Hlog : exists rest,
             log (snd (handlePasteComponentUrl registry componentName w))
             = log w ++ ClipboardPaste (manifestUrl registry componentName) :: rest
             /\ pasted rest = []).
  { run. destruct (paste_outcome _ _); simpl; [destruct (close_outcome _); simpl|];
      rewrite <- ?app_assoc; simpl; eexists; (split; [reflexivity|]); reflexivity. }
  destruct Hlog as (rest & Hlog & Hrest).
  rewrite (events_of_app _ _ _ Hlog). simpl. now rewrite Hrest.
Qed.

(** C6. The install commands of a component's row depend on the registry
    and on the component's name only: two components of the same name give
    the same commands for the same registry, whatever else they hold, and
    the URL a paste sends is the same in any two worlds. *)
Theorem install_commands_deterministic
    (registry1 registry2 : Registry.t) (component1 component2 : Component)
    (w1 w2 : World) (componentName1 componentName2 : string) :
  registry1 = registry2 ->
  name component1 = name component2 ->
  componentName1 = componentName2 ->
  actionPanel registry1 component1 = actionPanel registry2 component2
  /\ pasted (events_of (handlePasteComponentUrl registry1 componentName1) w1)
     = pasted (events_of (handlePasteComponentUrl registry2 componentName2) w2).
Proof.
  intros -> Hname ->. split.
  - unfold actionPanel. now rewrite Hname.
  - now rewrite !handlePasteComponentUrl_pasted.
Qed.

(** C7. Every text the command hands to the clipboard has one of two
    forms: the URL of the component's manifest (the registry's base URL,
    the component's name and ".json"), or "npx shadcn-ui@latest add "
    followed by the component's name or by that URL. The row's two actions
    carry the two commands, the paste handler sends the URL, and the other
    handlers send nothing. *)
Theorem clipboard_text_forms
    (registry : Registry.t) (component : Component) (componentName : string)
    (actions : list Action) :
  ToString (name component) = Ok componentName ->
  actionPanel registry component = Ok actions ->
  clipboardContents actions
  = [installCommand (manifestUrl registry componentName);
     installCommand componentName]
  /\ Forall (clipboard_form registry componentName) (clipboardContents actions)
  /\ (forall w,
        pasted (events_of (handlePasteComponentUrl registry componentName) w)
        = [manifestUrl registry componentName])
  /\ (forall w,
        Forall (clipboard_form registry componentName)
          (pasted (events_of (handlePasteComponentUrl registry componentName) w)))
  /\ (forall r w, pasted (events_of (fetchComponents r) w) = [])
  /\ (forall r w, pasted (events_of (handleSelectRegistry r) w) = [])
  /\ (forall w, pasted (events_of handleGoBack w) = []).
Proof.
  intros Hname Hactions. unfold actionPanel in Hactions. rewrite Hname in Hactions.
  simpl in Hactions. injection Hactions as <-.
  assert (Hquiet : forall r w, exists events,
             log (snd (fetchComponents r w)) = log w ++ events
             /\ pasted events = []).
  { intros r w. run. meet; rewrite <- ?app_assoc; simpl; eexists;
      (split; [reflexivity|]); reflexivity. }
  split; [reflexivity|]. split; [|split; [|split; [|split; [|split]]]].
  - simpl. constructor; [|constructor; [|constructor]];
      unfold clipboard_form; auto.
  - intros w. apply handlePasteComponentUrl_pasted.
  - intros w. rewrite handlePasteComponentUrl_pasted.
    constructor; [|constructor]. unfold clipboard_form; auto.
  - intros r w. destruct (Hquiet r w) as (events & Hlog & Hnone).
    now rewrite (events_of_app _ _ _ Hlog).
  - intros r w.
    destruct (Hquiet r (snd (setSelectedRegistry (Some r) w))) as (events & Hlog & Hnone).
    rewrite (events_of_app _ _ (SetSelectedRegistry (Some r) :: events)); [exact Hnone|].
    unfold handleSelectRegistry, bind. simpl in *. rewrite Hlog.
    now rewrite <- app_assoc.
  - intros w.
    rewrite (events_of_app _ _ [SetSelectedRegistry None; SetComponents []; SetError None]);
      [reflexivity|].
    run. now rewrite <- !app_assoc.
Qed.

End Clipboard.

(** * More on the handlers *)

Section FetchOutcomes.
Context `{Host}.

(** A fetch, all at once: its state and its events are those of the
    outcome of its attempt. *)
Lemma fetchComponents_run (registry : Registry.t) (w : World) :
  fetchComponents registry w
  = (Ok tt,
     mkWorld
       (fetched (selectedRegistry (state w))
          (fst (attempt registry (network (environment w) (Registry.jsonUrl registry)))))
       (log w ++ opening registry
          ++ snd (attempt registry (network (environment w) (Registry.jsonUrl registry)))
          ++ closing registry
               (fst (attempt registry (network (environment w) (Registry.jsonUrl registry))))
          ++ [SetIsLoading false])
       (environment w)).
Proof.
  unfold attempt, normalise, opening. run.
  meet; rewrite <- ?app_assoc; try reflexivity;
    match goal with e : thrown |- _ => destruct e; reflexivity end.
Qed.

Lemma fetchComponents_state (registry : Registry.t) (w : World) :
  state (snd (fetchComponents registry w))
  = fetched (selectedRegistry (state w))
      (fst (attempt registry (network (environment w) (Registry.jsonUrl registry)))).
Proof. now rewrite fetchComponents_run. Qed.

Lemma fetchComponents_events (registry : Registry.t) (w : World) :
  events_of (fetchComponents registry) w
  = opening registry
      ++ snd (attempt registry (network (environment w) (Registry.jsonUrl registry)))
      ++ closing registry
           (fst (attempt registry (network (environment w) (Registry.jsonUrl registry))))
      ++ [SetIsLoading false].
Proof. apply events_of_app. now rewrite fetchComponents_run. Qed.

Lemma handleSelectRegistry_run (registry : Registry.t) (w : World) :
  handleSelectRegistry registry w
  = fetchComponents registry
      (mkWorld
         (mkState (Some registry) (components (state w)) (isLoading (state w))
            (error (state w)))
         (log w ++ [SetSelectedRegistry (Some registry)])
         (environment w)).
Proof. reflexivity. Qed.

(** X1. A fetch never throws, whatever the network does: it returns with
    the loading flag down, and leaves the selected registry alone. *)
Theorem fetchComponents_never_throws (registry : Registry.t) (w : World) :
  fst (fetchComponents registry w) = Ok tt
  /\ isLoading (state (snd (fetchComponents registry w))) = false
  /\ selectedRegistry (state (snd (fetchComponents registry w)))
     = selectedRegistry (state w)
  /\ environment (snd (fetchComponents registry w)) = environment w.
Proof.
  rewrite fetchComponents_run. simpl.
  destruct (fst (attempt _ _)); repeat split.
Qed.

(** X2. A fetch ends in one of two ways. Either no error is set and its
    last toast is the success one, announcing as many components as the
    list has; or an error is set, the list is empty and its last toast is
    the failure one, with the error as its message. *)
Theorem fetchComponents_outcome (registry : Registry.t) (w : World) :
  (error (state (snd (fetchComponents registry w))) = None
   /\ suffix
        [ ShowToast
            (Toast.mk Toast.Success "Components loaded"
               (Some (nat_to_string
                        (length (components (state (snd (fetchComponents registry w)))))
                        +:+ " components found in " +:+ Registry.name registry)));
          SetIsLoading false ]
        (events_of (fetchComponents registry) w))
  \/ (exists message,
         error (state (snd (fetchComponents registry w))) = Some message
         /\ components (state (snd (fetchComponents registry w))) = []
         /\ suffix
              [ ShowToast
                  (Toast.mk Toast.Failure "Error Fetching Components" (Some message));
                SetIsLoading false ]
              (events_of (fetchComponents registry) w)).
Proof.
  rewrite fetchComponents_events, fetchComponents_state.
  destruct (attempt _ _) as [[comps|e] console]; simpl.
  - left. split; [reflexivity | ends_with].
  - right. eexists. split; [reflexivity|]. split; [reflexivity | ends_with].
Qed.

(** X3. When the request itself fails, or the body of a successful
    response is no JSON, the error shown is the message of what was thrown
    ("An unknown error occurred" for what is no [Error]) and no component
    is listed. *)
Theorem fetchComponents_failure_message
    (registry : Registry.t) (w : World) (e : thrown) :
  network (environment w) (Registry.jsonUrl registry) = Throw e
  \/ (exists response,
         network (environment w) (Registry.jsonUrl registry) = Ok response
         /\ ok response = true
         /\ json response = Throw e) ->
  error (state (snd (fetchComponents registry w))) = Some (errorMessageOf e)
  /\ components (state (snd (fetchComponents registry w))) = []
  /\ In (ConsoleError "Fetch error:" e) (events_of (fetchComponents registry) w).
Proof.
  intros Hfail.
  assert (Hattempt :
            attempt registry (network (environment w) (Registry.jsonUrl registry))
            = (Throw e, [])).
  { destruct Hfail as [-> | (response & -> & Hok & Hjson)]; [reflexivity|].
    simpl. now rewrite Hok, Hjson. }
  rewrite fetchComponents_events, fetchComponents_state, Hattempt. simpl.
  repeat split. repeat first [ now left | right ].
Qed.

(** X4. For a registry the command does not know, whatever goes wrong in
    the normalisation is reported under the fallback's own message; what was
    thrown goes to the console only. *)
Theorem fallback_failure_message
    (registry : Registry.t) (w : World) (response : Response)
    (rawData : value) (e : thrown) :
  Registry.name registry <> "Shadcn UI" ->
  Registry.name registry <> "Kitze UI" ->
  network (environment w) (Registry.jsonUrl registry) = Ok response ->
  ok response = true ->
  json response = Ok rawData ->
  processUnknown rawData = Throw e ->
  error (state (snd (fetchComponents registry w)))
  = Some ("Failed to process data structure for registry: " +:+ Registry.name registry)
  /\ components (state (snd (fetchComponents registry w))) = []
  /\ In (ConsoleError
           ("Error processing fallback registry " +:+ Registry.name registry +:+ ":") e)
       (events_of (fetchComponents registry) w).
Proof.
  intros Hshadcn Hkitze Hnet Hok Hjson Hthrow.
  apply String.eqb_neq in Hshadcn, Hkitze.
  rewrite fetchComponents_events, fetchComponents_state, Hnet.
  unfold attempt, normalise. rewrite Hok, Hjson, Hshadcn, Hkitze, Hthrow. simpl.
  repeat split. repeat first [ now left | right ].
Qed.

(** A document that is no array makes the fallback throw. *)
Lemma processUnknown_not_array (rawData : value) :
  isArray rawData = false -> exists e, processUnknown rawData = Throw e.
Proof. destruct rawData; simpl; try discriminate; eauto. Qed.

(** X5. What a fetch leaves depends on the network and on nothing the
    state held before, the selected registry apart: components, error and
    loading flag of an earlier fetch have no influence, and the events are
    the same. *)
Theorem fetchComponents_forgets (registry : Registry.t) (w1 w2 : World) :
  environment w1 = environment w2 ->
  selectedRegistry (state w1) = selectedRegistry (state w2) ->
  state (snd (fetchComponents registry w1)) = state (snd (fetchComponents registry w2))
  /\ events_of (fetchComponents registry) w1 = events_of (fetchComponents registry) w2.
Proof.
  intros Henvironment Hselected.
  rewrite !fetchComponents_events, !fetchComponents_state, Henvironment, Hselected.
  split; reflexivity.
Qed.

(** X6. Selecting a registry and going back leaves the state as it was at
    the start, whatever the fetch met. *)
Theorem select_then_back (registry : Registry.t) (w : World) :
  state (snd (handleGoBack (snd (handleSelectRegistry registry w)))) = initialState.
Proof.
  rewrite handleSelectRegistry_run, fetchComponents_run. simpl.
  destruct (fst (attempt _ _)); reflexivity.
Qed.

(** X7. When a fetch settles while a registry is selected, the view is
    neither unselected nor fetching: it is the loaded one or the one of
    the error, and the loaded one when components are in the list. *)
Theorem settled_fetch_phase (registry selected : Registry.t) (w : World) :
  selectedRegistry (state w) = Some selected ->
  (phase (state (snd (fetchComponents registry w))) = Loaded
   \/ phase (state (snd (fetchComponents registry w))) = Errored)
  /\ (components (state (snd (fetchComponents registry w))) <> [] ->
      phase (state (snd (fetchComponents registry w))) = Loaded).
Proof.
  intros Hselected. rewrite fetchComponents_state, Hselected.
  destruct (fst (attempt _ _)) as [comps|e]; unfold phase, errorView; simpl.
  - auto.
  - destruct (String.eqb (errorMessageOf e) ""); simpl; split; auto;
      intros Hne; contradiction.
Qed.

(** X8. An error whose message is empty is not shown: the view of the
    registry says that no components were found. *)
Theorem empty_error_message_hidden
    (registry : Registry.t) (w : World) (e : thrown) :
  network (environment w) (Registry.jsonUrl registry) = Throw e ->
  errorMessageOf e = "" ->
  error (state (snd (handleSelectRegistry registry w))) = Some ""
  /\ render (state (snd (handleSelectRegistry registry w)))
     = ComponentList false (Registry.name registry +:+ " Components") None
         (Some (EmptyView.mk "No Components Found"
                  ("No components listed in " +:+ Registry.name registry +:+ ".")))
         [].
Proof.
  intros Hnet Hmessage.
  rewrite handleSelectRegistry_run, fetchComponents_state. simpl.
  rewrite Hnet. simpl. unfold render, errorView. simpl. rewrite Hmessage.
  split; reflexivity.
Qed.

(** X9. No registry of the list takes the fallback: fetching one of them
    never warns of an unknown registry. *)
Theorem available_registries_known (registry : Registry.t) (w : World) :
  In registry availableRegistries ->
  existsb is_warning (events_of (fetchComponents registry) w) = false.
Proof.
  intros Hin. rewrite fetchComponents_events, !existsb_app.
  assert (Hconsole :
            snd (attempt registry (network (environment w) (Registry.jsonUrl registry)))
            = []).
  { unfold attempt, normalise.
    destruct (network _ _) as [response|]; [|reflexivity].
    destruct (ok response); [|reflexivity].
    destruct (json response); [|reflexivity].
    destruct Hin as [<- | [<- | []]]; reflexivity. }
  rewrite Hconsole. destruct (fst (attempt _ _)); reflexivity.
Qed.

End FetchOutcomes.

Section Pasting.
Context `{Host}.

(** X10. Pasting a component's URL never throws and leaves the state as it
    is. *)
Theorem handlePasteComponentUrl_never_throws
    (registry : Registry.t) (componentName : string) (w : World) :
  fst (handlePasteComponentUrl registry componentName w) = Ok tt
  /\ state (snd (handlePasteComponentUrl registry componentName w)) = state w
  /\ environment (snd (handlePasteComponentUrl registry componentName w))
     = environment w.
Proof.
  run. destruct (paste_outcome _ _); simpl;
    [destruct (close_outcome _) as [[]|]; simpl|]; repeat split.
Qed.

(** X11. When the paste fails, the failure toast carries the error as a
    string and the window stays open. *)
Theorem handlePasteComponentUrl_paste_fails
    (registry : Registry.t) (componentName : string) (w : World) (e : thrown) :
  paste_outcome (environment w) (manifestUrl registry componentName) = Throw e ->
  events_of (handlePasteComponentUrl registry componentName) w
  = [ ClipboardPaste (manifestUrl registry componentName);
      ShowToast (Toast.mk Toast.Failure "Failed to Paste URL"
                   (Some (thrown_to_string e))) ].
Proof.
  intros Hpaste. apply events_of_app. unfold manifestUrl in *. run.
  rewrite Hpaste. simpl. now rewrite <- app_assoc.
Qed.

(** X12. When the paste succeeds, the success toast shows the URL and the
    window is asked to close; if closing fails, the toast of a failed paste
    follows all the same. *)
Theorem handlePasteComponentUrl_paste_succeeds
    (registry : Registry.t) (componentName : string) (w : World) :
  paste_outcome (environment w) (manifestUrl registry componentName) = Ok tt ->
  events_of (handlePasteComponentUrl registry componentName) w
  = [ ClipboardPaste (manifestUrl registry componentName);
      ShowToast (Toast.mk Toast.Success "Pasted Component URL"
                   (Some (manifestUrl registry componentName)));
      CloseMainWindow ]
    ++ match close_outcome (environment w) with
       | Ok _ => []
       | Throw e =>
           [ ShowToast (Toast.mk Toast.Failure "Failed to Paste URL"
                          (Some (thrown_to_string e))) ]
       end.
Proof.
  intros Hpaste. apply events_of_app. unfold manifestUrl in *. run.
  rewrite Hpaste. simpl.
  destruct (close_outcome _); simpl; now rewrite <- !app_assoc.
Qed.

End Pasting.

(** * More on the normalisation and on the rows *)

Section RowFacts.
Context `{Host}.

Lemma map_result_length {A B : Type} (f : A -> result B) (l : list A) (ys : list B) :
  map_result f l = Ok ys -> length ys = length l.
Proof.
  revert ys; induction l as [|x l IH]; intros ys; simpl.
  - now intros [= <-].
  - destruct (f x); simpl; [|discriminate].
    destruct (map_result f l) as [ys'|]; simpl; [|discriminate].
    intros [= <-]. simpl. f_equal. now apply IH.
Qed.

Lemma shadcnComponent_Ok (entry : value) :
  (exists c, shadcnComponent entry = Ok c) <-> nullish entry = false.
Proof.
  destruct entry; simpl; split; eauto; try discriminate; intros [c Hc]; discriminate.
Qed.

Lemma not_nullish_In (entries : list value) (x : value) :
  existsb nullish entries = false -> In x entries -> nullish x = false.
Proof.
  intros Hnone Hin. apply not_true_is_false. intros Hnull.
  assert (existsb nullish entries = true) by (apply existsb_exists; eauto).
  congruence.
Qed.

(** X13. The "Shadcn UI" branch makes components of a document exactly
    when it is an array none of whose entries is [null]; it then makes one
    component per entry. One [null] entry, or a document that is no array,
    and the whole list is lost. *)
Theorem processShadcn_Ok (rawData : value) :
  (forall comps,
      processShadcn rawData = Ok comps ->
      exists entries,
        rawData = VArr entries
        /\ existsb nullish entries = false
        /\ length comps = length entries)
  /\ (forall entries,
         rawData = VArr entries ->
         existsb nullish entries = false ->
         exists comps, processShadcn rawData = Ok comps).
Proof.
  split.
  - intros comps Hcomps. destruct rawData; try discriminate.
    exists elements. split; [reflexivity|]. unfold processShadcn in Hcomps.
    simpl in Hcomps. split; [|now apply map_result_length in Hcomps].
    apply map_result_Ok_inv in Hcomps.
    apply not_true_is_false. intros Hex. apply existsb_exists in Hex as (x & Hx & Hnull).
    rewrite List.Forall_forall in Hcomps. apply Hcomps, shadcnComponent_Ok in Hx.
    congruence.
  - intros entries -> Hnone.
    destruct (map_result_Forall2 shadcnComponent entries) as (comps & Hcomps & _);
      [|eauto].
    intros x Hx. apply shadcnComponent_Ok. exact (not_nullish_In _ _ Hnone Hx).
Qed.

(** X14. In the "Shadcn UI" branch an entry with a name and without files
    is listed all the same, and its row cannot be drawn: having no
    description, its subtitle is the join of files that are not there. *)
Theorem shadcn_fileless_row_throws
    (registry : Registry.t) (w : World) (response : Response)
    (entries : list value) (entry : value) (n : string) :
  Registry.name registry = "Shadcn UI" ->
  network (environment w) (Registry.jsonUrl registry) = Ok response ->
  ok response = true ->
  json response = Ok (VArr entries) ->
  existsb nullish entries = false ->
  In entry entries ->
  own entry "name" = Some (VStr n) ->
  n <> "" ->
  n <> "Unknown Component" ->
  own entry "files" = None ->
  exists c,
    In c (components (state (snd (fetchComponents registry w))))
    /\ name c = VStr n
    /\ subtitle c = Throw (TypeError (ReadPropertyOfNullish "join")).
Proof.
  intros Hname Hnet Hok Hjson Hnone Hin Hn Hne Hsentinel Hfiles.
  destruct (map_result_Forall2 shadcnComponent entries) as (comps & Hcomps & Hrel).
  { intros x Hx. apply shadcnComponent_Ok. exact (not_nullish_In _ _ Hnone Hx). }
  destruct (Forall2_In_l _ _ _ _ Hrel Hin) as (c & Hc & Hentry).
  destruct entry; try discriminate. rewrite shadcnComponent_object in Hentry.
  injection Hentry as <-. simpl in Hn, Hfiles. eexists. split; [|split].
  - rewrite fetchComponents_state, Hnet. unfold attempt, normalise.
    rewrite Hok, Hjson, Hname. unfold processShadcn. simpl. rewrite Hcomps. simpl.
    apply filter_In. split; [exact Hc|].
    apply (isValidComponent_string _ n); simpl; [now rewrite Hn | assumption..].
  - simpl. now rewrite Hn.
  - unfold subtitle. simpl. now rewrite Hfiles.
Qed.

Lemma map_String_string_array (array r : value) :
  map_String array = Ok r -> is_string_array r = true.
Proof.
  unfold map_String. destruct (js_map array ToString) as [strs|]; simpl; [|discriminate].
  intros [= <-]. simpl. induction strs; simpl; auto.
Qed.

Lemma array_field_conforms (comp : value) (key : string) (absent r : value) :
  (let* field := checked_field isArray comp key in
   match field with
   | Some v => map_String v
   | None => Ok absent
   end)%res = Ok r ->
  r = absent \/ is_string_array r = true.
Proof.
  rewrite checked_field_own. simpl.
  destruct (own comp key) as [v|]; [|intros [= <-]; now left].
  destruct (isArray v); [|intros [= <-]; now left].
  intros Hr. right. now apply map_String_string_array in Hr.
Qed.

(** X15. Whatever the fallback makes of an element is a component as the
    interface declares it: name and type are strings, the description is a
    string or undefined, the files are an array of strings and the two
    dependency lists are arrays of strings or undefined. *)
Theorem coerceUnknown_conforms (comp : value) (c : Component) :
  coerceUnknown comp = Ok c -> conforms c = true.
Proof.
  unfold coerceUnknown.
  rewrite string_field. simpl. rewrite string_field. simpl.
  destruct (let* field := checked_field isArray comp "files" in _)%res
    as [files|] eqn:Hfiles; [|discriminate]. simpl.
  destruct (let* field := checked_field isArray comp "dependencies" in _)%res
    as [deps|] eqn:Hdeps; [|discriminate]. simpl.
  destruct (let* field := checked_field isArray comp "registryDependencies" in _)%res
    as [registryDeps|] eqn:Hregistry; [|discriminate]. simpl.
  rewrite string_field. simpl. intros [= <-]. unfold conforms. simpl.
  apply array_field_conforms in Hfiles, Hdeps, Hregistry.
  assert (Hstring : forall field absent,
             is_string absent = true -> is_string (string_or field absent) = true).
  { intros [[]|] absent Habsent; simpl; auto. }
  assert (Hoptional : forall field,
             undefined_or is_string (string_or field VUndefined) = true).
  { intros [[]|]; reflexivity. }
  assert (Harray : forall r, r = VUndefined \/ is_string_array r = true ->
                             undefined_or is_string_array r = true).
  { intros r [-> | Hr]; [reflexivity|]. destruct r; simpl in *; congruence. }
  rewrite !Hstring, Hoptional, !Harray by auto.
  destruct Hfiles as [-> | ->]; reflexivity.
Qed.

Lemma wellFormedShadcnEntry_conforms (entry : value) :
  wellFormedShadcnEntry entry = true ->
  exists c, shadcnComponent entry = Ok c /\ conforms c = true.
Proof.
  unfold wellFormedShadcnEntry. rewrite !andb_true_iff.
  intros [[[[Hname Hdeps] Hregistry] Hfiles] Htype].
  apply required_own in Hname as (properties & n & -> & Hn & Hnstring).
  rewrite shadcnComponent_object. eexists. split; [reflexivity|].
  unfold conforms. simpl in *. rewrite Hn. simpl.
  destruct (properties !! "files") as [f|]; [|discriminate].
  destruct (properties !! "type") as [t|]; [|discriminate].
  destruct (properties !! "dependencies") as [d|];
    destruct (properties !! "registryDependencies") as [r|]; simpl in *;
    rewrite ?Hnstring, ?Hfiles, ?Htype; simpl;
    repeat match goal with
      | H : is_string_array ?v = true |- context [undefined_or _ ?v] =>
          destruct v; simpl in *; try discriminate; rewrite ?H
      end; reflexivity.
Qed.

Lemma wellFormedKitzeEntry_conforms (entry : value) :
  wellFormedKitzeEntry entry = true ->
  exists c, kitzeComponent entry = Ok c /\ conforms c = true.
Proof.
  intros Hwf. destruct (kitzeComponent_wellFormed entry Hwf)
    as (c & fileObjects & paths & Hc & _ & _ & Hfiles).
  exists c. split; [assumption|].
  unfold wellFormedKitzeEntry in Hwf. rewrite !andb_true_iff in Hwf.
  destruct Hwf as [[[[[[Hname _] Hdescription] Hdeps] Hregistry] Hentryfiles] Htype].
  apply required_own in Hname as (properties & n & -> & Hn & Hnstring).
  unfold kitzeComponent in Hc. simpl in Hc.
  destruct (js_map _ _) as [ps|]; simpl in Hc; [|discriminate].
  injection Hc as <-. unfold conforms. simpl in *. rewrite Hn. injection Hfiles as ->.
  destruct (properties !! "type") as [t|]; [|discriminate].
  assert (Hpaths : forallb is_string (List.map VStr paths) = true)
    by (clear; induction paths; simpl; auto).
  destruct (properties !! "description") as [d|];
    destruct (properties !! "dependencies") as [ds|];
    destruct (properties !! "registryDependencies") as [rs|]; simpl in *;
    rewrite ?Hnstring, ?Hpaths, ?Htype; simpl;
    repeat match goal with
      | H : is_string ?v = true |- context [undefined_or _ ?v] =>
          destruct v; simpl in *; try discriminate; rewrite ?H
      | H : is_string_array ?v = true |- context [undefined_or _ ?v] =>
          destruct v; simpl in *; try discriminate; rewrite ?H
      end; reflexivity.
Qed.

(** X16. After the fetch of a well-formed document of one of the two known
    registries, every component of the list is as the interface declares
    it. *)
Theorem known_registries_conform
    (registry : Registry.t) (w : World) (response : Response) (rawData : value) :
  network (environment w) (Registry.jsonUrl registry) = Ok response ->
  ok response = true ->
  json response = Ok rawData ->
  (Registry.name registry = "Shadcn UI" /\ wellFormedShadcnIndex rawData = true)
  \/ (Registry.name registry = "Kitze UI" /\ wellFormedKitzeRegistry rawData = true) ->
  error (state (snd (fetchComponents registry w))) = None
  /\ Forall (fun c => conforms c = true)
       (components (state (snd (fetchComponents registry w)))).
Proof.
  intros Hnet Hok Hjson Hwf.
  assert (Hfilter : forall comps,
             Forall (fun c => conforms c = true) comps ->
             Forall (fun c => conforms c = true) (List.filter isValidComponent comps)).
  { intros comps Hall. rewrite List.Forall_forall in *. intros c Hc.
    apply filter_In in Hc as [Hc _]. auto. }
  assert (Hmap : forall (f : value -> result Component) entries,
             (forall e, In e entries -> exists c, f e = Ok c /\ conforms c = true) ->
             exists comps, map_result f entries = Ok comps
                           /\ Forall (fun c => conforms c = true) comps).
  { intros f entries. induction entries as [|e l IH]; intros Hall; simpl.
    - exists []. split; [reflexivity | constructor].
    - destruct (Hall e (or_introl eq_refl)) as (c & -> & Hc).
      destruct IH as (comps & -> & Hcomps); [intros; apply Hall; now right|].
      exists (c :: comps). split; [reflexivity | now constructor]. }
  destruct Hwf as [[Hname Hwf] | [Hname Hwf]].
  - destruct rawData as [| | | | |entries|]; try discriminate. simpl in Hwf.
    destruct (Hmap shadcnComponent entries) as (comps & Hcomps & Hall).
    { intros e He. apply wellFormedShadcnEntry_conforms.
      exact (forallb_In _ _ _ Hwf He). }
    rewrite fetchComponents_state, Hnet. unfold attempt, normalise.
    rewrite Hok, Hjson, Hname. unfold processShadcn. simpl. rewrite Hcomps. simpl. auto.
  - unfold wellFormedKitzeRegistry in Hwf.
    apply required_own in Hwf as (properties & items & -> & Hitems & Hwf).
    destruct items as [| | | | |entries|]; try discriminate.
    destruct (Hmap kitzeComponent entries) as (comps & Hcomps & Hall).
    { intros e He. apply wellFormedKitzeEntry_conforms.
      exact (forallb_In _ _ _ Hwf He). }
    rewrite fetchComponents_state, Hnet. unfold attempt, normalise.
    rewrite Hok, Hjson, Hname. unfold processKitze. simpl. rewrite Hitems. simpl.
    rewrite Hcomps. simpl. auto.
Qed.

End RowFacts.


(** * More on the detail panel *)

Section DetailFacts.
Context `{Host}.

Lemma getCleanDepName_value_string (dep : string) :
  getCleanDepName_value (VStr dep) = VStr (getCleanDepName dep).
Proof.
  unfold getCleanDepName_value, getCleanDepName, shortName. simpl.
  destruct (new_URL dep) as [url|]; [|reflexivity].
  destruct (endsWith (pathname url) ".json"); [|reflexivity].
  destruct (nth_error _ _); reflexivity.
Qed.

Lemma map_result_strings (item : value -> result string) (l : list value) :
  forallb is_string l = true ->
  (forall s, exists text, item (VStr s) = Ok text) ->
  exists items, map_result item l = Ok items.
Proof.
  intros Hl Hitem.
  destruct (map_result_Forall2 item l) as (items & Hitems & _); [|eauto].
  intros x Hx. pose proof (forallb_In _ _ _ Hl Hx) as Hstring.
  destruct x; try discriminate. apply Hitem.
Qed.

Lemma markdownSection_Ok (heading : string) (v : value) (item : value -> result string) :
  undefined_or is_string_array v = true ->
  (forall s, exists text, item (VStr s) = Ok text) ->
  exists text, markdownSection heading v item = Ok text.
Proof.
  intros Hv Hitem. unfold markdownSection.
  destruct v as [| | | | |l|]; simpl in *; try discriminate; eauto.
  destruct (negb _); [|eauto].
  destruct (map_result_strings item l Hv Hitem) as [items ->]. simpl. eauto.
Qed.

(** X17. The row of a component that is as the interface declares it can
    be drawn: its markdown, its subtitle (a string) and its actions are
    computed without an exception. *)
Theorem conforming_row_renders (registry : Registry.t) (c : Component) :
  conforms c = true ->
  exists markdown text actions,
    detailMarkdown c = Ok markdown
    /\ subtitle c = Ok (VStr text)
    /\ actionPanel registry c = Ok actions.
Proof.
  unfold conforms. rewrite !andb_true_iff.
  intros [[[[[Hname Hdescription] Hdeps] Hregistry] Hfiles] _].
  destruct (name c) as [| | | |n| |] eqn:En; try discriminate.
  assert (Hfiles' : undefined_or is_string_array (files c) = true)
    by (destruct (files c); simpl in *; congruence).
  destruct (markdownSection_Ok "**Dependencies:**" (dependencies c) dependencyItem Hdeps)
    as [depsText Hd]; [intros s; simpl; eauto|].
  destruct (markdownSection_Ok "**Registry Dependencies:**" (registryDependencies c)
              registryDependencyItem Hregistry) as [registryText Hr].
  { intros s. unfold registryDependencyItem.
    rewrite getCleanDepName_value_string. simpl. eauto. }
  destruct (markdownSection_Ok "**Files:**" (files c) fileItem Hfiles')
    as [filesText Hf]; [intros s; simpl; eauto|].
  assert (Hdesc : exists text, ToString (descriptionOrDefault c) = Ok text).
  { unfold descriptionOrDefault.
    destruct (description c); simpl in *; try discriminate; eauto.
    destruct (negb _); simpl; eauto. }
  destruct Hdesc as [descriptionText Hdesc].
  assert (Hsubtitle : exists text, subtitle c = Ok (VStr text)).
  { unfold subtitle.
    destruct (description c) as [| | | |d| |]; simpl in *; try discriminate.
    - destruct (files c) as [| | | | |l|]; simpl in *; try discriminate.
      destruct (map_result_strings piece l Hfiles) as [pieces ->];
        [intros s; simpl; eauto | simpl; eauto].
    - destruct (negb _); [eauto|].
      destruct (files c) as [| | | | |l|]; simpl in *; try discriminate.
      destruct (map_result_strings piece l Hfiles) as [pieces ->];
        [intros s; simpl; eauto | simpl; eauto]. }
  destruct Hsubtitle as [text Hsubtitle].
  eexists _, text, _. unfold detailMarkdown, actionPanel.
  rewrite En, Hdesc, Hd, Hr, Hf. simpl. repeat split. exact Hsubtitle.
Qed.

Lemma contains_refl (s : string) : contains s s.
Proof. exists "", "". simpl. now rewrite app_empty_r. Qed.

Lemma contains_app_l (a b needle : string) :
  contains a needle -> contains (a +:+ b) needle.
Proof.
  intros (before & after & ->). exists before, (after +:+ b).
  now rewrite !app_assoc'.
Qed.

Lemma contains_app_r (a b needle : string) :
  contains b needle -> contains (a +:+ b) needle.
Proof.
  intros (before & after & ->). exists (a +:+ before), after.
  now rewrite !app_assoc'.
Qed.

Lemma concat_contains (separator : string) (items : list string) (item : string) :
  In item items -> contains (String.concat separator items) item.
Proof.
  induction items as [|x [|y l] IH]; intros Hin; [contradiction | |].
  - destruct Hin as [-> | []]. apply contains_refl.
  - change (String.concat separator (x :: y :: l))
      with (x +:+ separator +:+ String.concat separator (y :: l)).
    destruct Hin as [-> | Hin].
    + apply contains_app_l, contains_refl.
    + apply contains_app_r, contains_app_r, IH, Hin.
Qed.

Lemma map_result_In {A B : Type} (f : A -> result B) (l : list A) (ys : list B) (x : A) :
  map_result f l = Ok ys -> In x l -> exists y, f x = Ok y /\ In y ys.
Proof.
  revert ys; induction l as [|a l IH]; intros ys; simpl; [contradiction|].
  destruct (f a) as [b|] eqn:Ha; simpl; [|discriminate].
  destruct (map_result f l) as [bs|]; simpl; [|discriminate].
  intros [= <-] [-> | Hin].
  - exists b. split; [assumption | now left].
  - destruct (IH bs eq_refl Hin) as (y & Hy & Hin'). exists y. split; [assumption | now right].
Qed.

Lemma markdownSection_lists (heading : string) (l : list value)
    (item : value -> result string) (text : string) (x : value) (line : string) :
  markdownSection heading (VArr l) item = Ok text ->
  In x l ->
  item x = Ok line ->
  contains text line.
Proof.
  unfold markdownSection. simpl. intros Htext Hin Hline.
  destruct l as [|y l']; [contradiction|]. simpl negb in Htext. cbv iota in Htext.
  destruct (map_result item (y :: l')) as [items|] eqn:Hitems; [|discriminate].
  injection Htext as <-.
  destruct (map_result_In _ _ _ _ Hitems Hin) as (line' & Hline' & Hin').
  rewrite Hline in Hline'. injection Hline' as <-.
  apply (contains_app_r heading), (contains_app_r nl (String.concat nl items)).
  apply concat_contains, Hin'.
Qed.


End DetailFacts.

(** * More on the names of registry dependencies *)

Section DepNameFacts.
Context `{Host}.

Lemma Forall_last {A : Type} (P : A -> Prop) (l : list A) (d : A) :
  l <> [] -> Forall P l -> P (List.last l d).
Proof.
  intros Hne Hall. rewrite (app_removelast_last d Hne) in Hall.
  apply Forall_app in Hall as [_ Hlast]. now inversion Hlast.
Qed.

(** X19. The name shown for a registry dependency is the dependency itself
    or has no "/" in it. *)
Theorem getCleanDepName_no_slash (dep : string) :
  getCleanDepName dep = dep \/ has_char "/" (getCleanDepName dep) = false.
Proof.
  unfold getCleanDepName. destruct (new_URL dep) as [url|]; [|now left].
  destruct (endsWith (pathname url) ".json"); [|now left]. right.
  rewrite (nth_error_last _ "" (split_nonempty "/" (pathname url))).
  pose proof (Forall_last _ _ "" (split_nonempty "/" (pathname url))
                (split_sep_free "/" (pathname url))) as Hfree.
  simpl in Hfree.
  destruct (replace_first ".json" "" (List.last (split "/" (pathname url)) ""))
    as [(before & after & Hs & -> & _) | [_ ->]]; [|assumption].
  rewrite Hs, !has_char_app in Hfree. rewrite has_char_app. simpl.
  apply orb_false_iff in Hfree as [Hbefore Hrest].
  apply orb_false_iff in Hrest as [_ Hafter]. now rewrite Hbefore, Hafter.
Qed.

Lemma last_split_after (sep : ascii) (a b : string) :
  List.last (split sep (a +:+ String sep b)) "" = List.last (split sep b) "".
Proof.
  pose proof (split_nonempty sep b) as Hb.
  induction a as [|c a IH]; simpl.
  - rewrite Ascii.eqb_refl. destruct (split sep b); [contradiction | reflexivity].
  - pose proof (split_nonempty sep (a +:+ String sep b)) as Hne.
    pose proof (concat_split sep (a +:+ String sep b)) as Hconcat.
    pose proof (split_sep_free sep (a +:+ String sep b)) as Hfree.
    destruct (Ascii.eqb c sep).
    + rewrite <- IH. destruct (split sep (a +:+ String sep b)); [contradiction | reflexivity].
    + destruct (split sep (a +:+ String sep b)) as [|piece [|piece' pieces]];
        [contradiction | | exact IH].
      exfalso. simpl in Hconcat. subst piece. inversion Hfree as [|? ? Hpiece _]; subst.
      rewrite has_char_app in Hpiece. simpl in Hpiece.
      rewrite Ascii.eqb_refl, orb_true_r in Hpiece. discriminate.
Qed.

Lemma replace_after_stem (stem replacement rest : string) :
  has_char "." stem = false ->
  replace ".json" replacement (stem +:+ ".json" +:+ rest) = stem +:+ replacement +:+ rest.
Proof.
  induction stem as [|c stem IH]; intros Hstem.
  - apply (replace_prefix ".json" replacement _ rest). reflexivity.
  - simpl in Hstem. apply orb_false_iff in Hstem as [Hc Hstem].
    change ((String c stem) +:+ ".json" +:+ rest)
      with (String c (stem +:+ ".json" +:+ rest)).
    rewrite replace_eq.
    assert (String.prefix ".json" (String c (stem +:+ ".json" +:+ rest)) = false) as ->.
    { apply not_true_is_false. intros Hp. apply prefix_app in Hp as [t Ht].
      injection Ht as -> _. discriminate. }
    now rewrite (IH Hstem).
Qed.

(** X20. For the URL of a manifest, a pathname made of a directory, "/",
    a name without "/" or "." and ".json", the name shown is that name: what
    [manifestUrl] puts around a component's name, [getCleanDepName] takes
    off. *)
Theorem getCleanDepName_manifest (dep : string) (url : URL) (directory stem : string) :
  new_URL dep = Some url ->
  pathname url = directory +:+ "/" +:+ stem +:+ ".json" ->
  has_char "/" stem = false ->
  has_char "." stem = false ->
  getCleanDepName dep = stem.
Proof.
  intros Hurl Hpath Hslash Hdot. unfold getCleanDepName. rewrite Hurl.
  assert (Hends : endsWith (pathname url) ".json" = true).
  { apply endsWith_app. exists (directory +:+ "/" +:+ stem).
    now rewrite Hpath, !app_assoc'. }
  rewrite Hends, (nth_error_last _ "" (split_nonempty "/" (pathname url))), Hpath.
  change (directory +:+ "/" +:+ stem +:+ ".json")
    with (directory +:+ String "/" (stem +:+ ".json")).
  rewrite last_split_after, split_sep_free_whole.
  - simpl List.last. rewrite <- (app_empty_r (stem +:+ ".json")), app_assoc'.
    rewrite (replace_after_stem stem "" "" Hdot). simpl. apply app_empty_r.
  - rewrite has_char_app, Hslash. reflexivity.
Qed.

End DepNameFacts.

(** * More on what is listed and what is lost *)

Section Losses.
Context `{Host}.

Lemma map_result_Throw {A B : Type} (f : A -> result B) (l : list A) (x : A) :
  In x l -> (forall y, f x <> Ok y) -> exists e, map_result f l = Throw e.
Proof.
  intros Hin Hx. destruct (map_result f l) as [ys|e] eqn:Hl; [|eauto].
  apply map_result_Ok_inv in Hl. rewrite List.Forall_forall in Hl.
  destruct (Hl x Hin) as [y Hy]. now destruct (Hx y).
Qed.

(** X21. In the "Kitze UI" branch an entry whose files are no array costs
    the whole list: the normalisation throws, no component is listed and
    the error is what was thrown. *)
Theorem kitze_entry_without_files
    (registry : Registry.t) (w : World) (response : Response)
    (rawData : value) (entries : list value) (entry : value) :
  Registry.name registry = "Kitze UI" ->
  network (environment w) (Registry.jsonUrl registry) = Ok response ->
  ok response = true ->
  json response = Ok rawData ->
  Get rawData "items" = Ok (VArr entries) ->
  In entry entries ->
  (forall fileObjects, Get entry "files" <> Ok (VArr fileObjects)) ->
  exists e,
    processKitze rawData = Throw e
    /\ components (state (snd (fetchComponents registry w))) = []
    /\ error (state (snd (fetchComponents registry w))) = Some (errorMessageOf e).
Proof.
  intros Hname Hnet Hok Hjson Hitems Hin Hfiles.
  destruct (map_result_Throw kitzeComponent entries entry Hin) as [e He].
  { intros c. unfold kitzeComponent.
    destruct (Get entry "name"); simpl; [|discriminate].
    destruct (Get entry "description"); simpl; [|discriminate].
    destruct (Get entry "dependencies"); simpl; [|discriminate].
    destruct (Get entry "registryDependencies"); simpl; [|discriminate].
    destruct (Get entry "files") as [compFiles|]; simpl; [|discriminate].
    destruct compFiles; simpl; try discriminate. now destruct (Hfiles elements). }
  exists e.
  assert (Hprocess : processKitze rawData = Throw e).
  { unfold processKitze. rewrite Hitems. simpl. exact He. }
  split; [exact Hprocess|].
  rewrite fetchComponents_state, Hnet. unfold attempt, normalise.
  rewrite Hok, Hjson, Hname. simpl. rewrite Hprocess. split; reflexivity.
Qed.

Lemma coerceUnknown_name (comp : value) (c : Component) :
  coerceUnknown comp = Ok c ->
  name c = string_or (own comp "name") (VStr "Unknown Component").
Proof.
  unfold coerceUnknown.
  rewrite string_field. simpl. rewrite string_field. simpl.
  destruct (let* field := checked_field isArray comp "files" in _)%res;
    [|discriminate]. simpl.
  destruct (let* field := checked_field isArray comp "dependencies" in _)%res;
    [|discriminate]. simpl.
  destruct (let* field := checked_field isArray comp "registryDependencies" in _)%res;
    [|discriminate]. simpl.
  rewrite string_field. simpl. now intros [= <-].
Qed.

(** X22. Of an unknown registry's array, only the objects with a [name]
    that is a string, not empty and not "Unknown Component", make it to the
    list: every component listed has the name of such an element. *)
Theorem fallback_lists_named_objects
    (registry : Registry.t) (w : World) (response : Response)
    (elements : list value) (c : Component) :
  Registry.name registry <> "Shadcn UI" ->
  Registry.name registry <> "Kitze UI" ->
  network (environment w) (Registry.jsonUrl registry) = Ok response ->
  ok response = true ->
  json response = Ok (VArr elements) ->
  In c (components (state (snd (fetchComponents registry w)))) ->
  exists comp n,
    In comp elements
    /\ own comp "name" = Some (VStr n)
    /\ name c = VStr n
    /\ n <> ""
    /\ n <> "Unknown Component".
Proof.
  intros Hshadcn Hkitze Hnet Hok Hjson.
  apply String.eqb_neq in Hshadcn, Hkitze.
  rewrite fetchComponents_state, Hnet. unfold attempt, normalise.
  rewrite Hok, Hjson, Hshadcn, Hkitze. unfold processUnknown. simpl.
  destruct (map_result coerceUnknown elements) as [comps|] eqn:Hcomps;
    simpl; [|contradiction].
  intros Hc. apply filter_In in Hc as [Hc Hvalid].
  assert (Hrel : Forall2 (fun comp c => coerceUnknown comp = Ok c) elements comps).
  { destruct (map_result_Forall2 coerceUnknown elements) as (comps' & Hcomps' & Hrel).
    - apply map_result_Ok_inv in Hcomps. now apply List.Forall_forall.
    - rewrite Hcomps in Hcomps'. now injection Hcomps' as <-. }
  assert (Hsource : exists comp, In comp elements /\ coerceUnknown comp = Ok c).
  { clear -Hrel Hc. induction Hrel as [|comp c' l l' Hcc' _ IH]; [contradiction|].
    destruct Hc as [<- | Hc].
    - exists comp. split; [now left | assumption].
    - destruct (IH Hc) as (comp' & Hin & Hcomp'). exists comp'. split; [now right | assumption]. }
  destruct Hsource as (comp & Hin & Hcomp).
  apply coerceUnknown_name in Hcomp.
  apply isValidComponent_meaningful in Hvalid as (_ & _ & _ & Hempty & Hsentinel).
  rewrite Hcomp in Hempty, Hsentinel. unfold string_or in *.
  destruct (own comp "name") as [[| | | |n| |]|] eqn:Hown;
    try (now destruct Hsentinel).
  exists comp, n. repeat split; try assumption; congruence.
Qed.

End Losses.

(** * The names of the listed components *)

Section ListedNames.
Context `{Host}.

Lemma map_result_source {A B : Type} (f : A -> result B) (l : list A)
    (ys : list B) (y : B) :
  map_result f l = Ok ys -> In y ys -> exists x, In x l /\ f x = Ok y.
Proof.
  revert ys; induction l as [|a l IH]; intros ys; simpl.
  - intros [= <-] [].
  - destruct (f a) as [b|] eqn:Ha; simpl; [|discriminate].
    destruct (map_result f l) as [bs|]; simpl; [|discriminate].
    intros [= <-] [<- | Hin].
    + exists a. split; [now left | assumption].
    + destruct (IH bs eq_refl Hin) as (x & Hx & Hfx).
      exists x. split; [now right | assumption].
Qed.

Lemma coerceUnknown_name_string (comp : value) (c : Component) :
  coerceUnknown comp = Ok c -> exists s, name c = VStr s.
Proof.
  intros Hc. apply coerceUnknown_name in Hc. rewrite Hc. unfold string_or.
  destruct (own comp "name") as [[]|]; eauto.
Qed.

Lemma meaningful_string (s : string) :
  meaningful_name (VStr s) -> s <> "" /\ s <> "Unknown Component".
Proof. intros (_ & _ & _ & Hempty & Hsentinel). split; congruence. Qed.

(** C2, as the code has it. After a fetch, whatever it met, every component
    of the list has passed the filter: its name is truthy (not missing, not
    [null], not the empty string) and is not the string "Unknown Component".
    A name that is a string is therefore a non-empty string other than
    "Unknown Component", and after the fallback's coercion every name is
    one. The two known branches copy the name as it comes, so that a truthy
    name that is no string stays in the list. *)
Theorem fetched_components_named (registry : Registry.t) (w : World) :
  Forall (fun c => meaningful_name (name c))
    (components (state (snd (fetchComponents registry w))))
  /\ Forall (fun c => meaningful_name (name c))
       (displayed (render (state (snd (handleSelectRegistry registry w)))))
  /\ (forall c s,
         In c (components (state (snd (fetchComponents registry w)))) ->
         name c = VStr s ->
         s <> "" /\ s <> "Unknown Component")
  /\ (Registry.name registry <> "Shadcn UI" ->
      Registry.name registry <> "Kitze UI" ->
      forall c,
        In c (components (state (snd (fetchComponents registry w)))) ->
        exists s, name c = VStr s /\ s <> "" /\ s <> "Unknown Component").
Proof.
  assert (Hlisted : forall selected outcome,
             Forall (fun c => meaningful_name (name c))
               (components (fetched selected outcome))).
  { intros selected [comps|e]; simpl; [|constructor].
    apply List.Forall_forall. intros c Hc.
    apply filter_In in Hc as [_ Hc]. now apply isValidComponent_meaningful. }
  split; [|split; [|split]].
  - rewrite fetchComponents_state. apply Hlisted.
  - rewrite handleSelectRegistry_run, fetchComponents_state. unfold render.
    destruct (fst (attempt _ _)); simpl; apply (Hlisted (Some registry) (Ok _))
      || constructor.
  - intros c s Hc Hname. apply meaningful_string. rewrite <- Hname.
    rewrite fetchComponents_state in Hc.
    pose proof (Hlisted (selectedRegistry (state w))
                  (fst (attempt registry
                          (network (environment w) (Registry.jsonUrl registry)))))
      as Hall.
    rewrite List.Forall_forall in Hall. now apply Hall.
  - intros Hshadcn Hkitze c Hc.
    apply String.eqb_neq in Hshadcn, Hkitze.
    rewrite fetchComponents_state in Hc. unfold attempt, normalise in Hc.
    rewrite Hshadcn, Hkitze in Hc.
    destruct (network _ _) as [response|]; [|contradiction].
    destruct (ok response); [|contradiction].
    destruct (json response) as [rawData|]; [|contradiction].
    destruct (processUnknown rawData) as [comps|] eqn:Hcomps; [|contradiction].
    simpl in Hc. apply filter_In in Hc as [Hc Hvalid].
    destruct rawData as [| | | | |elements|]; try discriminate.
    unfold processUnknown in Hcomps. simpl in Hcomps.
    destruct (map_result_source _ _ _ _ Hcomps Hc) as (comp & _ & Hcomp).
    destruct (coerceUnknown_name_string comp c Hcomp) as [s Hs].
    exists s. split; [assumption|]. apply meaningful_string. rewrite <- Hs.
    now apply isValidComponent_meaningful.
Qed.

End ListedNames.

(** * The properties at work

    Each property with a hypothesis, applied in the concrete host, and the
    inputs at which the specification's sentence and the code part. *)

Section Instances.
#[local] Existing Instance plain_host.

Lemma shadcn_entries_listed_witness :
  exists c,
    In c (components
            (state (snd (fetchComponents shadcn (answering (Ok (okResponse shadcnIndex)))))))
    /\ name c = VStr "button"
    /\ own buttonEntry "files" = Some (files c).
Proof.
  apply (shadcn_entries_listed shadcn (answering (Ok (okResponse shadcnIndex)))
           (okResponse shadcnIndex) [buttonEntry; placeholderEntry] buttonEntry "button");
    try reflexivity.
  - left. reflexivity.
  - discriminate.
  - discriminate.
Defined.

(** The claim C1 as the specification states it fails: an entry of a
    well-formed index whose name, "Unknown Component", is not empty, is
    not in the list after the fetch. *)
Lemma shadcn_placeholder_entry_dropped :
  wellFormedShadcnIndex shadcnIndex = true
  /\ In placeholderEntry [buttonEntry; placeholderEntry]
  /\ own placeholderEntry "name" = Some (VStr "Unknown Component")
  /\ String.eqb "Unknown Component" "" = false
  /\ components
       (state (snd (fetchComponents shadcn (answering (Ok (okResponse shadcnIndex))))))
     = [buttonComponent].
Proof.
  split; [reflexivity|]. split; [right; left; reflexivity|].
  split; [reflexivity|]. split; reflexivity.
Qed.

Lemma kitze_files_are_paths_witness :
  exists comps,
    processKitze kitzeDocument = Ok comps
    /\ Forall2 (fun entry c =>
                  exists fileObjects paths,
                    own entry "files" = Some (VArr fileObjects)
                    /\ Forall2 (fun file p => own file "path" = Some (VStr p))
                         fileObjects paths
                    /\ files c = VArr (List.map VStr paths))
         [kitzeEntry] comps
    /\ components
         (state (snd (fetchComponents kitze (answering (Ok (okResponse kitzeDocument))))))
       = List.filter isValidComponent comps.
Proof.
  apply (kitze_files_are_paths kitze (answering (Ok (okResponse kitzeDocument)))
           (okResponse kitzeDocument) kitzeDocument [kitzeEntry]);
    reflexivity.
Defined.

Example kitze_calendar_files :
  List.map files
    (components
       (state (snd (fetchComponents kitze (answering (Ok (okResponse kitzeDocument)))))))
  = [strings ["registry/ui/calendar.tsx"; "registry/lib/dates.ts"]].
Proof. reflexivity. Qed.

Lemma fetchComponents_http_failure_witness :
  error (state (snd (fetchComponents shadcn (answering (Ok notFound)))))
  = Some "HTTP 404: Not Found - Unknown error"
  /\ render (state (snd (handleSelectRegistry shadcn (answering (Ok notFound)))))
     = ComponentList false "Shadcn UI Components"
         (Some (EmptyView.mk "Error Fetching Components"
                  "HTTP 404: Not Found - Unknown error"))
         None [].
Proof.
  destruct (fetchComponents_http_failure shadcn (answering (Ok notFound)) notFound
              eq_refl eq_refl)
    as (_ & Herror & _ & _ & _ & _ & Hrender).
  split; [exact Herror | exact Hrender].
Defined.

Lemma install_commands_deterministic_witness :
  actionPanel kitze buttonComponent
  = actionPanel kitze
      (mkComponent (VStr "button") (VStr "Another button") VUndefined VUndefined
         (strings ["registry/ui/button.tsx"]) (VStr "registry:ui"))
  /\ pasted (events_of (handlePasteComponentUrl kitze "button")
               (answering (Ok notFound)))
     = pasted (events_of (handlePasteComponentUrl kitze "button")
                 (answering (Ok (okResponse kitzeDocument)))).
Proof.
  apply (install_commands_deterministic kitze kitze); reflexivity.
Defined.

Lemma clipboard_text_forms_witness :
  clipboardContents
    [ ActionPaste "Paste Install Command (with URL)"
        "npx shadcn-ui@latest add https://ui.kitze.io/r/button.json";
      ActionCopyToClipboard "Copy Install Command (name only)"
        "npx shadcn-ui@latest add button";
      ActionCallback "Go Back to Registries" handleGoBack ]
  = [ installCommand (manifestUrl kitze "button"); installCommand "button" ].
Proof.
  apply (clipboard_text_forms kitze buttonComponent "button"); reflexivity.
Defined.

Lemma fallback_total_on_stringifiable_witness :
  exists comps,
    processUnknown (VArr mixedArray) = Ok comps
    /\ Forall2 coerced mixedArray comps
    /\ components
         (state (snd (fetchComponents acme
                        (answering (Ok (okResponse (VArr mixedArray)))))))
       = List.filter isValidComponent comps.
Proof.
  apply (fallback_total_on_stringifiable acme
           (answering (Ok (okResponse (VArr mixedArray))))
           (okResponse (VArr mixedArray)) mixedArray);
    try reflexivity; discriminate.
Defined.

Example fallback_mixed_array :
  List.map (fun c => (name c, files c))
    (components
       (state (snd (fetchComponents acme
                      (answering (Ok (okResponse (VArr mixedArray))))))))
  = [(VStr "card", strings ["1"; "null"; "card.tsx"])].
Proof. reflexivity. Qed.

(** The claim C8 as the specification states it fails: on an element whose
    [files] hold an object with a [toString] property of its own, [String]
    throws, the callback makes no component, and the fetch ends with the
    fallback's error. *)
Lemma fallback_throws_on_unprintable :
  coerceUnknown
    (object [ ("name", VStr "card");
              ("files", VArr [object [("toString", VNull)]]) ])
  = Throw (ThrownError "TypeError" "Cannot convert object to primitive value")
  /\ processUnknown (VArr unprintableArray)
     = Throw (ThrownError "TypeError" "Cannot convert object to primitive value")
  /\ components
       (state (snd (fetchComponents acme
                      (answering (Ok (okResponse (VArr unprintableArray)))))))
     = []
  /\ error
       (state (snd (fetchComponents acme
                      (answering (Ok (okResponse (VArr unprintableArray)))))))
     = Some "Failed to process data structure for registry: Acme UI".
Proof. repeat split. Qed.

Lemma getCleanDepName_short_name_witness :
  (exists filename,
      last_segment "/" "/r/button.json" filename
      /\ without_first ".json" filename
           (getCleanDepName "https://ui.kitze.io/r/button.json"))
  /\ getCleanDepName "@radix-ui/react-slot" = "@radix-ui/react-slot".
Proof.
  split.
  - apply (proj1 (getCleanDepName_short_name "https://ui.kitze.io/r/button.json")
             (mkURL "/r/button.json")); reflexivity.
  - apply (proj2 (getCleanDepName_short_name "@radix-ui/react-slot")).
    intros url Hurl. vm_compute in Hurl. discriminate Hurl.
Defined.

Example getCleanDepName_button :
  getCleanDepName "https://ui.kitze.io/r/button.json" = "button"
  /\ getCleanDepName "https://ui.kitze.io/r/data.json.json" = "data.json"
  /\ getCleanDepName "https://ui.kitze.io/r/button" = "https://ui.kitze.io/r/button"
  /\ getCleanDepName "button" = "button".
Proof. repeat split. Qed.

Lemma fetched_components_named_witness :
  exists s,
    name cardComponent = VStr s /\ s <> "" /\ s <> "Unknown Component".
Proof.
  assert (Hshadcn : Registry.name acme <> "Shadcn UI") by discriminate.
  assert (Hkitze : Registry.name acme <> "Kitze UI") by discriminate.
  exact (proj2 (proj2 (proj2 (fetched_components_named acme
                                (answering (Ok (okResponse (VArr mixedArray)))))))
           Hshadcn Hkitze cardComponent (or_introl eq_refl)).
Defined.

(** The claim C2 as the specification states it fails: in the "Shadcn UI"
    branch entries whose names are arrays pass the filter, and the list has
    a component whose name is no string and reads as the empty text, and
    one whose name reads "Unknown Component". *)
Lemma array_named_entries_listed :
  List.map name
    (components
       (state (snd (fetchComponents shadcn
                      (answering (Ok (okResponse (VArr arrayNamedEntries))))))))
  = [VArr []; VArr [VStr "Unknown Component"]]
  /\ is_string (VArr []) = false
  /\ ToString (VArr []) = Ok ""
  /\ ToString (VArr [VStr "Unknown Component"]) = Ok "Unknown Component"
  /\ actionPanel shadcn
       (mkComponent (VArr []) VUndefined VUndefined VUndefined
          (strings ["ui/nameless.tsx"]) (VStr "components:ui"))
     = Ok [ ActionPaste "Paste Install Command (with URL)"
              "npx shadcn-ui@latest add https://ui.shadcn.com/registry/components/r/.json";
            ActionCopyToClipboard "Copy Install Command (name only)"
              "npx shadcn-ui@latest add ";
            ActionCallback "Go Back to Registries" handleGoBack ].
Proof. repeat split. Qed.

End Instances.

(** * The further properties at work *)

Section MoreInstances.
#[local] Existing Instance plain_host.

Lemma fetchComponents_failure_message_witness :
  error (state (snd (fetchComponents kitze offline))) = Some "getaddrinfo ENOTFOUND"
  /\ components (state (snd (fetchComponents kitze offline))) = []
  /\ In (ConsoleError "Fetch error:" (ThrownError "FetchError" "getaddrinfo ENOTFOUND"))
       (events_of (fetchComponents kitze) offline).
Proof.
  exact (fetchComponents_failure_message kitze offline
           (ThrownError "FetchError" "getaddrinfo ENOTFOUND") (or_introl eq_refl)).
Defined.

Lemma fallback_failure_message_witness :
  error (state (snd (fetchComponents acme (answering (Ok (okResponse notAnArray))))))
  = Some "Failed to process data structure for registry: Acme UI".
Proof.
  assert (Hshadcn : Registry.name acme <> "Shadcn UI") by discriminate.
  assert (Hkitze : Registry.name acme <> "Kitze UI") by discriminate.
  destruct (fallback_failure_message acme (answering (Ok (okResponse notAnArray)))
              (okResponse notAnArray) notAnArray
              (ThrownError "TypeError" "map is not a function")
              Hshadcn Hkitze eq_refl eq_refl eq_refl eq_refl) as [Herror _].
  exact Herror.
Defined.

Lemma fetchComponents_forgets_witness :
  state (snd (fetchComponents kitze offline))
  = state (snd (fetchComponents kitze offlineFresh))
  /\ events_of (fetchComponents kitze) offline
     = events_of (fetchComponents kitze) offlineFresh.
Proof. exact (fetchComponents_forgets kitze offline offlineFresh eq_refl eq_refl). Defined.

Lemma empty_error_message_hidden_witness :
  error (state (snd (handleSelectRegistry kitze speechless))) = Some ""
  /\ render (state (snd (handleSelectRegistry kitze speechless)))
     = ComponentList false "Kitze UI Components" None
         (Some (EmptyView.mk "No Components Found" "No components listed in Kitze UI."))
         [].
Proof.
  exact (empty_error_message_hidden kitze speechless (ThrownError "Error" "")
           eq_refl eq_refl).
Defined.

Lemma available_registries_known_witness :
  existsb is_warning (events_of (fetchComponents shadcn) offline) = false.
Proof. exact (available_registries_known shadcn offline (or_introl eq_refl)). Defined.

Lemma handlePasteComponentUrl_paste_fails_witness :
  events_of (handlePasteComponentUrl kitze "button") offline
  = [ ClipboardPaste "https://ui.kitze.io/r/button.json";
      ShowToast (Toast.mk Toast.Failure "Failed to Paste URL"
                   (Some "Error: No frontmost application")) ].
Proof.
  exact (handlePasteComponentUrl_paste_fails kitze "button" offline
           (Error "No frontmost application") eq_refl).
Defined.

Lemma handlePasteComponentUrl_paste_succeeds_witness :
  events_of (handlePasteComponentUrl kitze "button") speechless
  = [ ClipboardPaste "https://ui.kitze.io/r/button.json";
      ShowToast (Toast.mk Toast.Success "Pasted Component URL"
                   (Some "https://ui.kitze.io/r/button.json"));
      CloseMainWindow ].
Proof.
  exact (handlePasteComponentUrl_paste_succeeds kitze "button" speechless eq_refl).
Defined.

Lemma processShadcn_Ok_witness :
  (exists entries,
      shadcnIndex = VArr entries
      /\ existsb nullish entries = false
      /\ length [buttonComponent;
                 mkComponent (VStr "Unknown Component") VUndefined VUndefined VUndefined
                   (strings ["ui/unknown.tsx"]) (VStr "components:ui")]
         = length entries)
  /\ exists comps, processShadcn (VArr [buttonEntry; filelessEntry]) = Ok comps.
Proof.
  split.
  - exact (proj1 (processShadcn_Ok shadcnIndex) _ eq_refl).
  - exact (proj2 (processShadcn_Ok (VArr [buttonEntry; filelessEntry]))
             [buttonEntry; filelessEntry] eq_refl eq_refl).
Defined.

Lemma shadcn_fileless_row_throws_witness :
  exists c,
    In c (components
            (state (snd (fetchComponents shadcn
                           (answering (Ok (okResponse (VArr [filelessEntry]))))))))
    /\ name c = VStr "badge"
    /\ subtitle c
       = Throw (ThrownError "TypeError" "Cannot read properties of null (reading 'join')").
Proof.
  assert (Hne : "badge" <> "") by discriminate.
  assert (Hsentinel : "badge" <> "Unknown Component") by discriminate.
  exact (shadcn_fileless_row_throws shadcn
           (answering (Ok (okResponse (VArr [filelessEntry]))))
           (okResponse (VArr [filelessEntry])) [filelessEntry] filelessEntry "badge"
           eq_refl eq_refl eq_refl eq_refl eq_refl (or_introl eq_refl) eq_refl
           Hne Hsentinel eq_refl).
Defined.

Lemma coerceUnknown_conforms_witness :
  conforms (mkComponent (VStr "Unknown Component") VUndefined VUndefined VUndefined
              (VArr []) (VStr "unknown")) = true.
Proof. exact (coerceUnknown_conforms VNull _ eq_refl). Defined.

Lemma known_registries_conform_witness :
  error (state (snd (fetchComponents kitze (answering (Ok (okResponse kitzeDocument))))))
  = None
  /\ Forall (fun c => conforms c = true)
       (components
          (state (snd (fetchComponents kitze (answering (Ok (okResponse kitzeDocument))))))).
Proof.
  exact (known_registries_conform kitze (answering (Ok (okResponse kitzeDocument)))
           (okResponse kitzeDocument) kitzeDocument eq_refl eq_refl eq_refl
           (or_intror (conj eq_refl eq_refl))).
Defined.

Lemma conforming_row_renders_witness :
  exists markdown text actions,
    detailMarkdown calendarComponent = Ok markdown
    /\ subtitle calendarComponent = Ok (VStr text)
    /\ actionPanel kitze calendarComponent = Ok actions.
Proof. exact (conforming_row_renders kitze calendarComponent eq_refl). Defined.


Lemma getCleanDepName_manifest_witness :
  getCleanDepName (manifestUrl kitze "button") = "button".
Proof.
  exact (getCleanDepName_manifest (manifestUrl kitze "button")
           (mkURL "/r/button.json") "/r" "button" eq_refl eq_refl eq_refl eq_refl).
Defined.

Lemma kitze_entry_without_files_witness :
  exists e,
    processKitze (object [("items", VArr [kitzeEntry; filelessEntry])]) = Throw e
    /\ components
         (state (snd (fetchComponents kitze
                        (answering
                           (Ok (okResponse
                                  (object [("items", VArr [kitzeEntry; filelessEntry])])))))))
       = []
    /\ error
         (state (snd (fetchComponents kitze
                        (answering
                           (Ok (okResponse
                                  (object [("items", VArr [kitzeEntry; filelessEntry])])))))))
       = Some (errorMessageOf e).
Proof.
  assert (Hfiles : forall fileObjects,
             Get filelessEntry "files" <> Ok (VArr fileObjects))
    by (intros fileObjects Hfiles; discriminate Hfiles).
  exact (kitze_entry_without_files kitze
           (answering (Ok (okResponse (object [("items", VArr [kitzeEntry; filelessEntry])]))))
           (okResponse (object [("items", VArr [kitzeEntry; filelessEntry])]))
           (object [("items", VArr [kitzeEntry; filelessEntry])])
           [kitzeEntry; filelessEntry] filelessEntry
           eq_refl eq_refl eq_refl eq_refl eq_refl (or_intror (or_introl eq_refl)) Hfiles).
Defined.

Lemma fallback_lists_named_objects_witness :
  exists comp n,
    In comp mixedArray
    /\ own comp "name" = Some (VStr n)
    /\ name cardComponent = VStr n
    /\ n <> ""
    /\ n <> "Unknown Component".
Proof.
  assert (Hshadcn : Registry.name acme <> "Shadcn UI") by discriminate.
  assert (Hkitze : Registry.name acme <> "Kitze UI") by discriminate.
  exact (fallback_lists_named_objects acme
           (answering (Ok (okResponse (VArr mixedArray))))
           (okResponse (VArr mixedArray)) mixedArray cardComponent
           Hshadcn Hkitze eq_refl eq_refl eq_refl (or_introl eq_refl)).
Defined.

Lemma settled_fetch_phase_witness :
  phase (state (snd (fetchComponents kitze offline))) = Loaded
  \/ phase (state (snd (fetchComponents kitze offline))) = Errored.
Proof. exact (proj1 (settled_fetch_phase kitze kitze offline eq_refl)). Defined.

End MoreInstances.
